(** * pagination: query parsing, pageable envelopes and nullable wrappers

    A shallow embedding of the Go package [pagination].  Go values are
    modelled as follows.

    - [int], [int64], [int32] are [Z]; conversions are written out with
      their wrap-around.
    - [string] and [[]byte] are [string] (a sequence of bytes).
    - [float64] is [spec_float], the IEEE 754 binary64 values of the
      standard library, with [prec = 53] and [emax = 1024].
    - A slice is [slice T]: Go tells the nil slice from the empty one.
    - [interface{}] is [GoAny], a value together with its dynamic type.
    - A function returning [(T, error)] returns [T * option error],
      [None] being the nil error.
    - A method with a pointer receiver takes the receiver's value and
      returns the new one. *)

From Stdlib Require Import ZArith String Ascii List Bool Lia.
From Stdlib Require Import DecimalString DecimalPos DecimalN SpecFloat.
Import ListNotations.

Open Scope string_scope.
Open Scope Z_scope.

(** ** Go basics *)

Abbreviation bytes := string (only parsing).

Abbreviation float64 := spec_float (only parsing).

Inductive slice (T : Type) : Type :=
| nil_slice
| make_slice (elems : list T).

Arguments nil_slice {T}.
Arguments make_slice {T} elems.

Definition slice_elems {T : Type} (s : slice T) : list T :=
  match s with
  | nil_slice => []
  | make_slice l => l
  end.

(** [append(s, x)] *)
Definition append {T : Type} (s : slice T) (x : T) : slice T :=
  make_slice (slice_elems s ++ [x])%list.

(** The composite literal [[]T{}]: empty, not nil. *)
Definition empty_slice {T : Type} : slice T := make_slice [].

Definition MaxInt32 : Z := 2147483647.
Definition MinInt32 : Z := -2147483648.
Definition MaxInt64 : Z := 9223372036854775807.
Definition MinInt64 : Z := -9223372036854775808.

(** The conversion [int32(x)] of an [int64]: the low 32 bits, read as a
    signed number. *)
Definition int32_of_int64 (x : Z) : Z :=
  (x + 2147483648) mod 4294967296 - 2147483648.

(** ** time

    A [Time] without monotonic clock reading, as [time.Parse],
    [time.Date] and the database drivers produce it: the instant, in
    nanoseconds since January 1, year 1, 00:00:00 UTC, and the identity
    of the [*Location] it is displayed in (0 for UTC). *)

Module time.

Record Time := { nanos : Z; loc : Z }.

(** The zero value [Time{}]. *)
Definition zero : Time := {| nanos := 0; loc := 0 |}.

Definition IsZero (t : Time) : bool := nanos t =? 0.

Definition After (t u : Time) : bool := nanos u <? nanos t.

Definition Before (t u : Time) : bool := nanos t <? nanos u.

(** The operator [==] on two [Time] structs: every field is compared,
    the location pointer included. *)
Definition eqb (t u : Time) : bool :=
  (nanos t =? nanos u) && (loc t =? loc u).

Definition RFC3339 : string := "2006-01-02T15:04:05Z07:00".

End time.

(** ** database/sql null records

    Each wrapper of the package embeds one of these, so that its fields
    are the wrapper's own. *)

Module sql.

Module NullBool.
Record t := mk { Bool : bool; Valid : bool }.
End NullBool.

Module NullInt64.
Record t := mk { Int64 : Z; Valid : bool }.
End NullInt64.

Module NullFloat64.
Record t := mk { Float64 : float64; Valid : bool }.
End NullFloat64.

Module NullString.
Record t := mk { String_ : string; Valid : bool }.
End NullString.

Module NullTime.
Record t := mk { Time : time.Time; Valid : bool }.
End NullTime.

End sql.

(** [Label] holds a [NullEmptyString], which is a [sql.NullString]. *)
Record Label := { Label_Label : sql.NullString.t }.

(** ** Interface values

    The dynamic types listed are those a JSON decode into [interface{}]
    produces ([nil], [bool], [float64], [string], [[]interface{}],
    [map[string]interface{}]), the integers, and the typed slices that
    [BuildPageable] is instantiated with. *)

#[warnings="-register-all"]
Inductive GoAny : Type :=
| VNil
| VBool (b : bool)
| VInt (i : Z)
| VInt64 (i : Z)
| VFloat64 (f : float64)
| VString (s : string)
| VSliceAny (s : slice GoAny)
| VMapAny (m : list (string * GoAny))
| VSliceBool (s : slice bool)
| VSliceInt (s : slice Z)
| VSliceString (s : slice string)
| VSliceLabel (s : slice Label).

(** ** Errors *)

Inductive NumErr := ErrSyntax | ErrRange.

Inductive error : Type :=
| NumError (Func Num : string) (Err : NumErr)
| errorString (msg : string)
| BadRequestValueError (Key : string) (Value : GoAny) (Err : error)
| LibraryError (pkg msg : string).

(** ** strconv *)

Module strconv.

Definition Itoa (i : Z) : string := NilEmpty.string_of_int (Z.to_int i).

Definition digit_of (c : ascii) : option Z :=
  let n := Z.of_nat (nat_of_ascii c) in
  if (48 <=? n) && (n <=? 57) then Some (n - 48) else None.

Definition maxUint64 : Z := 18446744073709551615.

(** The digit loop of [ParseUint(s, 10, 64)], with [n] the value read so
    far.  [inl] is the value, [inr] the clamped value and the error. *)
Fixpoint ParseUint_loop (s : string) (n : Z) : Z + Z * NumErr :=
  match s with
  | EmptyString => inl n
  | String c rest =>
      match digit_of c with
      | None => inr (0, ErrSyntax)
      | Some d =>
          let cutoff := maxUint64 / 10 + 1 in
          if cutoff <=? n then inr (maxUint64, ErrRange)
          else
            let n := n * 10 in
            let n1 := (n + d) mod (maxUint64 + 1) in
            if (n1 <? n) || (maxUint64 <? n1) then inr (maxUint64, ErrRange)
            else ParseUint_loop rest n1
      end
  end.

Definition ParseUint (s : string) : Z + Z * NumErr :=
  match s with
  | EmptyString => inr (0, ErrSyntax)
  | _ => ParseUint_loop s 0
  end.

(** [ParseInt(s, 10, 64)]: the value and the kind of error, if any. *)
Definition ParseInt (s : string) : Z * option NumErr :=
  match s with
  | EmptyString => (0, Some ErrSyntax)
  | String c rest =>
      let neg := Ascii.eqb c "-" in
      let s' := if Ascii.eqb c "+" || neg then rest else s in
      let cutoff := 9223372036854775808 in
      let finish (un : Z) :=
        if negb neg && (cutoff <=? un) then (cutoff - 1, Some ErrRange)
        else if neg && (cutoff <? un) then (- cutoff, Some ErrRange)
        else (if neg then - un else un, None) in
      match ParseUint s' with
      | inr (_, ErrSyntax) => (0, Some ErrSyntax)
      | inr (un, ErrRange) =>
          match finish un with
          | (v, Some e) => (v, Some e)
          | (v, None) => (v, Some ErrRange)
          end
      | inl un => finish un
      end
  end.

(** [Atoi]: [int] is 64 bits wide. *)
Definition Atoi (s : string) : Z * option error :=
  match ParseInt s with
  | (v, Some e) => (v, Some (NumError "Atoi" s e))
  | (v, None) => (v, None)
  end.

End strconv.

(** ** The request context of gin

    Only the parsed query is kept: each key present in the URL with its
    values in order of appearance, the first one apart since a key that
    is present has at least one value. *)

Module gin.

Record Context := { queryCache : list (string * (string * list string)) }.

Fixpoint lookup (m : list (string * (string * list string))) (key : string)
  : option (string * list string) :=
  match m with
  | [] => None
  | (k, v) :: rest => if String.eqb k key then Some v else lookup rest key
  end.

Definition GetQueryArray (c : Context) (key : string)
  : option (string * list string) :=
  lookup (queryCache c) key.

Definition GetQuery (c : Context) (key : string) : string * bool :=
  match GetQueryArray c key with
  | Some (v0, _) => (v0, true)
  | None => (EmptyString, false)
  end.

Definition DefaultQuery (c : Context) (key defaultValue : string) : string :=
  match GetQuery c key with
  | (value, true) => value
  | (_, false) => defaultValue
  end.

End gin.

(** ** Pagination *)

Record Pagination := { Offset : Z; Limit : Z }.

Record Pageable := {
  Pageable_Limit : Z;
  Pageable_Offset : Z;
  Total : Z;
  Data : GoAny
}.

(** The constants [DefaultOffset] and [DefaultLimit500] are declared
    in a file of the package that is not at hand: the functions take
    them as they find them. *)
Class Constants := { DefaultOffset : Z; DefaultLimit500 : Z }.

(** Modelled from the spec: the constants [DefaultOffset] and
    [DefaultLimit500], which the spec gives as offset 0 and limit 500. *)
Definition spec_constants : Constants :=
  {| DefaultOffset := 0; DefaultLimit500 := 500 |}.

(** The zero value [Pagination{}]. *)
Definition Pagination_zero : Pagination := {| Offset := 0; Limit := 0 |}.

(** [fmt.Errorf("<what> (%d) cannot be negative", n)] *)
Definition negative_error (what : string) (n : Z) : error :=
  errorString (what ++ " (" ++ strconv.Itoa n ++ ") cannot be negative").

Section Pagination.

Context {K : Constants}.

Definition Default : Pagination :=
  {| Offset := 0; Limit := DefaultLimit500 |}.

Definition GetFromURLQuery (c : gin.Context) : Pagination * option error :=
  let key := "offset" in
  let (offset, err) :=
    strconv.Atoi (gin.DefaultQuery c key (strconv.Itoa DefaultOffset)) in
  match err with
  | Some err => (Pagination_zero, Some (BadRequestValueError key VNil err))
  | None =>
      if offset <? 0 then
        (Pagination_zero,
         Some (BadRequestValueError key VNil (negative_error "offset" offset)))
      else
        let key := "limit" in
        let (limit, err) :=
          strconv.Atoi
            (gin.DefaultQuery c key (strconv.Itoa DefaultLimit500)) in
        match err with
        | Some err =>
            (Pagination_zero, Some (BadRequestValueError key VNil err))
        | None =>
            if limit <? 0 then
              (Pagination_zero,
               Some (BadRequestValueError key VNil
                       (negative_error "limit" limit)))
            else ({| Offset := offset; Limit := limit |}, None)
        end
  end.

End Pagination.

(** ** Floating point: the operations of the package on [float64] *)

Module math.

Definition float64_of_int (n : Z) : float64 :=
  binary_normalize 53 1024 n 0 false.

Definition mul (x y : float64) : float64 := SFmul 53 1024 x y.

Definition div (x y : float64) : float64 := SFdiv 53 1024 x y.

Definition IsNaN (f : float64) : bool :=
  match f with
  | S754_nan => true
  | _ => false
  end.

(** [f == 0]: both zeros compare equal to 0, NaN to nothing. *)
Definition is_zero (f : float64) : bool :=
  match f with
  | S754_zero _ => true
  | _ => false
  end.

(** [Pow10(4)], which the library reads from a table: exactly 10000. *)
Definition Pow10_4 : float64 := float64_of_int 10000.

(** The integer part of a finite value, towards zero. *)
Definition truncate (f : float64) : option Z :=
  match f with
  | S754_zero _ => Some 0
  | S754_finite s m e =>
      let a := Z.shiftl (Z.pos m) e in
      Some (if s then - a else a)
  | _ => None
  end.

(** The language leaves to the implementation what a conversion to an
    integer type gives for a value that the type cannot hold. *)
Class Platform := { convert_overflow : float64 -> Z }.

(** amd64: the instruction CVTTSD2SQ answers the smallest [int64]. *)
Definition amd64 : Platform := {| convert_overflow := fun _ => MinInt64 |}.

(** arm64: FCVTZS saturates, and answers 0 for NaN. *)
Definition arm64 : Platform :=
  {| convert_overflow := fun f =>
       match f with
       | S754_nan => 0
       | S754_infinity s | S754_finite s _ _ =>
           if s then MinInt64 else MaxInt64
       | S754_zero _ => 0
       end |}.

(** [int64(f)], and [int(f)] since [int] is 64 bits wide. *)
Definition int64_of_float64 {P : Platform} (f : float64) : Z :=
  match truncate f with
  | Some v =>
      if (MinInt64 <=? v) && (v <=? MaxInt64) then v else convert_overflow f
  | None => convert_overflow f
  end.

End math.

(** ** encoding/json

    [Marshal v] is [json.Marshal(v)]; [Unmarshal data v] is
    [json.Unmarshal(data, &v)] for a variable holding [v], and returns
    the variable's new value.  Booleans, integers and [nil] are written
    out; strings and floats are left to the instances. *)

Module json.

Class CanMarshal (T : Type) := { Marshal : T -> bytes * option error }.

Class CanUnmarshal (T : Type) :=
  { Unmarshal : bytes -> T -> T * option error }.

(** An error of the library, a [SyntaxError] or an [UnmarshalTypeError],
    on the input [data]. *)
Definition invalid (data : bytes) : error :=
  LibraryError "encoding/json" data.

Definition is_space (c : ascii) : bool :=
  let n := nat_of_ascii c in
  (n =? 32)%nat || (n =? 9)%nat || (n =? 10)%nat || (n =? 13)%nat.

Fixpoint skip_space (s : string) : string :=
  match s with
  | String c rest => if is_space c then skip_space rest else s
  | EmptyString => EmptyString
  end.

Fixpoint drop_trailing_space (s : string) : string :=
  match s with
  | EmptyString => EmptyString
  | String c rest =>
      match drop_trailing_space rest with
      | EmptyString => if is_space c then EmptyString else String c EmptyString
      | rest' => String c rest'
      end
  end.

(** The JSON text of [data] without the white space around it. *)
Definition literal (data : bytes) : string :=
  drop_trailing_space (skip_space data).

(** [json.Marshal(nil)] *)
Definition Marshal_nil : bytes * option error := ("null", None).

Definition Marshal_bool (b : bool) : bytes * option error :=
  (if b then "true" else "false", None).

Definition Unmarshal_bool (data : bytes) (v : bool) : bool * option error :=
  let item := literal data in
  if (item =? "null")%string then (v, None)
  else if (item =? "true")%string then (true, None)
  else if (item =? "false")%string then (false, None)
  else (v, Some (invalid data)).

#[global] Instance bool_CanMarshal : CanMarshal bool :=
  {| Marshal := Marshal_bool |}.

#[global] Instance bool_CanUnmarshal : CanUnmarshal bool :=
  {| Unmarshal := Unmarshal_bool |}.

Definition is_digit (c : ascii) : bool :=
  match strconv.digit_of c with
  | Some _ => true
  | None => false
  end.

Fixpoint all_digits (s : string) : bool :=
  match s with
  | EmptyString => true
  | String c rest => is_digit c && all_digits rest
  end.

(** A JSON number without fraction and exponent: an optional minus
    sign, then either the digit 0 alone or digits of which the first is
    not 0. *)
Definition is_int_literal (item : string) : bool :=
  let ds := match item with
            | String c rest => if Ascii.eqb c "-" then rest else item
            | EmptyString => item
            end in
  match ds with
  | EmptyString => false
  | String c rest =>
      if Ascii.eqb c "0" then
        match rest with EmptyString => true | _ => false end
      else is_digit c && all_digits rest
  end.

Definition Marshal_int64 (i : Z) : bytes * option error :=
  (strconv.Itoa i, None).

Definition Unmarshal_int64 (data : bytes) (v : Z) : Z * option error :=
  let item := literal data in
  if (item =? "null")%string then (v, None)
  else if is_int_literal item then
    match strconv.ParseInt item with
    | (n, None) => (n, None)
    | (_, Some _) => (v, Some (invalid data))
    end
  else (v, Some (invalid data)).

#[global] Instance int64_CanMarshal : CanMarshal Z :=
  {| Marshal := Marshal_int64 |}.

#[global] Instance int64_CanUnmarshal : CanUnmarshal Z :=
  {| Unmarshal := Unmarshal_int64 |}.

(** [var x *T; err := json.Unmarshal(data, &x)]: [null] leaves the
    pointer nil, anything else is decoded into a fresh [T]. *)
Definition Unmarshal_ptr {T : Type} {C : CanUnmarshal T}
  (zero : T) (data : bytes) : option T * option error :=
  if (literal data =? "null")%string then (None, None)
  else let (v, err) := Unmarshal data zero in (Some v, err).

End json.

(** [time.Parse(layout, value)] and [t.Format(layout)] are the
    library's; the package only passes layouts and strings to them. *)
Class TimeLayouts := {
  time_Parse : string -> string -> time.Time * option error;
  time_Format : time.Time -> string -> string
}.

(** [err == nil] *)
Definition isNil (err : option error) : bool :=
  match err with
  | None => true
  | Some _ => false
  end.

(** The byte of the double quote. *)
Definition dquote : string := String (ascii_of_nat 34) EmptyString.

(** ** Pageable construction and decoding *)

(** What the generic functions need of their type parameter [T]: its
    name as [%T] prints it, its zero value, and the interface value that
    holds a [[]T]. *)
Class GoType (T : Type) := {
  type_name : string;
  zero_value : T;
  box_slice : slice T -> GoAny
}.

#[global] Instance any_GoType : GoType GoAny :=
  {| type_name := "<nil>"; zero_value := VNil; box_slice := VSliceAny |}.

#[global] Instance bool_GoType : GoType bool :=
  {| type_name := "bool"; zero_value := false; box_slice := VSliceBool |}.

#[global] Instance int_GoType : GoType Z :=
  {| type_name := "int"; zero_value := 0; box_slice := VSliceInt |}.

#[global] Instance string_GoType : GoType string :=
  {| type_name := "string"; zero_value := EmptyString;
     box_slice := VSliceString |}.

#[global] Instance Label_GoType : GoType Label :=
  {| type_name := "pagination.Label";
     zero_value := {| Label_Label := sql.NullString.mk EmptyString false |};
     box_slice := VSliceLabel |}.

Definition BuildPageable {T : Type} {G : GoType T}
  (page : Pagination) (total : Z) (data : slice T) : Pageable :=
  {| Pageable_Limit := Limit page;
     Pageable_Offset := Offset page;
     Total := total;
     Data := box_slice data |}.

Section PageableToSlice.

Context {T : Type} {G : GoType T}.
Context {A : json.CanMarshal GoAny} {C : json.CanUnmarshal T}.

Definition cast_error : error :=
  errorString "unable to cast data field of pageable to a slice of interface".

Definition encode_error : error :=
  errorString
    ("unable to encode JSON elements for " ++ type_name ++ " datatype").

(** The [for ... range sliceInterface] loop; [data] is the slice built
    so far. *)
Fixpoint PageableToSlice_loop (values : list GoAny) (data : slice T)
  : slice T * option error :=
  match values with
  | [] => (data, None)
  | value :: rest =>
      let sample := zero_value in
      let (jsonBytes, err) := json.Marshal value in
      match err with
      | Some _ => (empty_slice, Some encode_error)
      | None =>
          let (sample, err) := json.Unmarshal jsonBytes sample in
          match err with
          | Some _ => (empty_slice, Some encode_error)
          | None => PageableToSlice_loop rest (append data sample)
          end
      end
  end.

Definition PageableToSlice (pageable : Pageable) : slice T * option error :=
  match Data pageable with
  | VSliceAny sliceInterface =>
      PageableToSlice_loop (slice_elems sliceInterface) nil_slice
  | _ => (empty_slice, Some cast_error)
  end.

End PageableToSlice.

(** ** The nullable wrappers *)

Module NullBool.

Import sql.NullBool.

Definition t := sql.NullBool.t.

Definition IsEmpty (nb : t) : bool :=
  if negb (Valid nb) || negb (Bool nb) then true else false.

Definition MarshalJSON (nb : t) : bytes * option error :=
  if negb (Valid nb) then ("null", None)
  else json.Marshal (Bool nb).

Definition UnmarshalJSON (nb : t) (b : bytes) : t * option error :=
  if (b =? "null")%string then (mk (Bool nb) false, None)
  else
    let (v, err) := json.Unmarshal b (Bool nb) in
    (mk v (isNil err), err).

Definition MapToBool (nb : t) : option bool :=
  if negb (Valid nb) then None else Some (Bool nb).

Definition MapForRequest (nb : t) : GoAny :=
  if negb (Valid nb) then VNil
  else if Bool nb then VInt 1 else VInt 0.

End NullBool.

(** [asString(src)] of [database/sql], for a string and for an integer:
    the string itself, and [strconv.FormatInt] of the integer. *)
Definition asString (src : GoAny) : option string :=
  match src with
  | VString v => Some v
  | VInt i | VInt64 i => Some (strconv.Itoa i)
  | _ => None
  end.

(** What [database/sql] makes of a scanned value that is neither nil,
    nor a string, nor an integer, when it is to be stored as an [int64]
    or as a [string]: a boolean and a float are printed first, a slice
    and a map have no conversion; this is the library's business. *)
Class SQLText := {
  convertAssign_int64 : GoAny -> Z * option error;
  convertAssign_string : GoAny -> string * option error
}.

(** The error of [database/sql] on a value whose text [s] is not that
    of an [int64]. *)
Definition conversion_error (s : string) : error :=
  LibraryError "database/sql" ("converting driver.Value " ++ s).

Module NullInt.

Import sql.NullInt64.

Definition t := sql.NullInt64.t.

Section Methods.

Context {P : math.Platform} {F : json.CanUnmarshal float64}.

Definition MarshalJSON (ni : t) : bytes * option error :=
  if negb (Valid ni) || (Int64 ni =? 0) then ("null", None)
  else json.Marshal (Int64 ni).

Definition UnmarshalJSON (ni : t) (b : bytes) : t * option error :=
  let f : float64 := S754_zero false in
  let (f, err) := json.Unmarshal b f in
  let ni := mk (math.int64_of_float64 f) (Valid ni) in
  let ni := mk (Int64 ni) (isNil err) in
  let ni := if (b =? "null")%string then mk (Int64 ni) false else ni in
  (ni, err).

End Methods.

Section Scanning.

Context {X : SQLText}.

(** [sql.NullInt64.Scan] on a fresh variable: an [int64] is stored as
    it is, and the text of any other value goes to
    [strconv.ParseInt]. *)
Definition sql_Scan (value : GoAny) : t * option error :=
  match value with
  | VNil => (mk 0 false, None)
  | VInt64 i => (mk i true, None)
  | _ =>
      let (i64, err) :=
        match asString value with
        | Some s =>
            match strconv.ParseInt s with
            | (i64, None) => (i64, None)
            | (_, Some _) => (0, Some (conversion_error s))
            end
        | None => convertAssign_int64 value
        end in
      (mk i64 true, err)
  end.

Definition Scan (ni : t) (value : GoAny) : t * option error :=
  let ni := match value with
            | VNil => mk 0 false
            | _ => ni
            end in
  let (i, err) := sql_Scan value in
  match err with
  | Some err => (ni, Some err)
  | None =>
      let ni := mk (Int64 i) (Valid ni) in
      if Int64 i =? 0 then (mk (Int64 ni) false, None)
      else (mk (Int64 ni) true, None)
  end.

End Scanning.

Definition MapToInt64 (ni : t) : option Z :=
  if negb (Valid ni) then None else Some (Int64 ni).

Definition too_high (i : Z) : error :=
  errorString ("could not convert NullInt to *int32, value "
               ++ strconv.Itoa i ++ " too high").

Definition MapToInt32 (ni : t) : option Z * option error :=
  if negb (Valid ni) then (None, None)
  else if MaxInt32 <? Int64 ni then (None, Some (too_high (Int64 ni)))
  else
    let value := int32_of_int64 (Int64 ni) in
    (Some value, None).

Definition IsEmpty (ni : t) : bool :=
  if negb (Valid ni) || (Int64 ni =? 0) then true else false.

End NullInt.

(** What [database/sql] makes of a scanned value that is neither nil,
    nor a [float64], nor an integer: it is printed and read back with
    [strconv.ParseFloat], which is the library's business. *)
Class SQLConvert := { convertAssign_float64 : GoAny -> float64 * option error }.

Module NullFloat.

Import sql.NullFloat64.

Definition t := sql.NullFloat64.t.

Section Methods.

Context {P : math.Platform} {D : SQLConvert}.
Context {FM : json.CanMarshal float64} {FU : json.CanUnmarshal float64}.

Definition MarshalJSON (nf : t) : bytes * option error :=
  if negb (Valid nf) || math.is_zero (Float64 nf) then ("null", None)
  else json.Marshal (Float64 nf).

Definition UnmarshalJSON (nf : t) (b : bytes) : t * option error :=
  let (f, err) := json.Unmarshal b (Float64 nf) in
  let nf := mk f (isNil err) in
  let nf := if (b =? "null")%string then mk (Float64 nf) false else nf in
  (nf, err).

(** [sql.NullFloat64.Scan] on a fresh variable. *)
Definition sql_Scan (value : GoAny) : t * option error :=
  match value with
  | VNil => (mk (S754_zero false) false, None)
  | VFloat64 f => (mk f true, None)
  | VInt i | VInt64 i => (mk (math.float64_of_int i) true, None)
  | _ => let (f, err) := convertAssign_float64 value in (mk f true, err)
  end.

Definition Scan (nf : t) (value : GoAny) : t * option error :=
  match value with
  | VNil => (mk (S754_zero false) false, None)
  | _ =>
      let (i, err) := sql_Scan value in
      match err with
      | Some err => (nf, Some err)
      | None =>
          if math.IsNaN (Float64 i) then (mk (S754_zero false) false, None)
          else
            let f :=
              math.div
                (math.float64_of_int
                   (math.int64_of_float64 (math.mul (Float64 i) math.Pow10_4)))
                math.Pow10_4 in
            let i := mk f (Valid i) in
            let nf := mk (Float64 i) (Valid nf) in
            if math.is_zero (Float64 i) then (mk (Float64 nf) false, None)
            else (mk (Float64 nf) true, None)
      end
  end.

End Methods.

Definition IsEmpty (nf : t) : bool :=
  if negb (Valid nf) || math.is_zero (Float64 nf) then true else false.

Definition MapToFloat64 (nf : t) : option float64 :=
  if negb (Valid nf) then None else Some (Float64 nf).

End NullFloat.

Module NullString.

Import sql.NullString.

Definition t := sql.NullString.t.

Section Methods.

Context {SM : json.CanMarshal string} {SU : json.CanUnmarshal string}.

Definition MarshalJSON (ns : t) : bytes * option error :=
  if negb (Valid ns) || (String_ ns =? EmptyString)%string then ("null", None)
  else json.Marshal (String_ ns).

Definition UnmarshalJSON (ns : t) (b : bytes) : t * option error :=
  if (b =? "null")%string || (b =? EmptyString)%string then
    (mk (String_ ns) false, None)
  else
    let (v, err) := json.Unmarshal b (String_ ns) in
    (mk v (isNil err), err).

End Methods.

Section Scanning.

Context {X : SQLText}.

(** [sql.NullString.Scan] on a fresh variable: a string is stored as
    it is, an integer as its text. *)
Definition sql_Scan (value : GoAny) : t * option error :=
  match value with
  | VNil => (mk EmptyString false, None)
  | _ =>
      let (s, err) :=
        match asString value with
        | Some s => (s, None)
        | None => convertAssign_string value
        end in
      (mk s true, err)
  end.

Definition Scan (ns : t) (value : GoAny) : t * option error :=
  let ns := match value with
            | VNil => mk EmptyString false
            | _ => ns
            end in
  let (i, err) := sql_Scan value in
  match err with
  | Some err => (ns, Some err)
  | None =>
      let ns := i in
      if Valid i && (String_ i =? EmptyString)%string then
        (mk (String_ ns) false, None)
      else (ns, None)
  end.

End Scanning.

Definition IsEmpty (ns : t) : bool :=
  if negb (Valid ns) || (String_ ns =? EmptyString)%string then true
  else false.

Definition MapToString (ns : t) : option string :=
  if negb (Valid ns) then None else Some (String_ ns).

End NullString.

Module NullEmptyString.

Import sql.NullString.

Definition t := sql.NullString.t.

Section Methods.

Context {SM : json.CanMarshal string} {SU : json.CanUnmarshal string}.

Definition MarshalJSON (ns : t) : bytes * option error :=
  if negb (Valid ns) then json.Marshal EmptyString
  else json.Marshal (String_ ns).

Definition UnmarshalJSON (ns : t) (b : bytes) : t * option error :=
  let (v, err) := json.Unmarshal b (String_ ns) in
  (mk v (isNil err), err).

End Methods.

End NullEmptyString.

Module NullTime.

Import sql.NullTime.

Definition t := sql.NullTime.t.

Section Methods.

Context {L : TimeLayouts} {SM : json.CanMarshal string}.

Definition MarshalJSON (nt : t) : bytes * option error :=
  if negb (Valid nt) || time.IsZero (Time nt) then ("null", None)
  else json.Marshal (time_Format (Time nt) "2006-01-02").

Definition UnmarshalJSON (nt : t) (b : bytes) : t * option error :=
  if (b =? "null")%string then (mk (Time nt) false, None)
  else
    let (t1, err) := time_Parse (dquote ++ "2006-01-02" ++ dquote) b in
    let nt := mk t1 (Valid nt) in
    if isNil err then (mk (Time nt) true, None)
    else
      let (t2, err) := time_Parse (dquote ++ time.RFC3339 ++ dquote) b in
      let nt := mk t2 (Valid nt) in
      if isNil err then (mk (Time nt) true, err)
      else (nt, err).

Definition MapToString (nt : t) : option string :=
  if negb (Valid nt) then None
  else Some (time_Format (Time nt) time.RFC3339).

End Methods.

Definition AfterOrEqual (nt t : t) : bool :=
  if negb (time.IsZero (Time nt)) && time.IsZero (Time t) then false
  else time.eqb (Time nt) (Time t) || time.After (Time nt) (Time t).

Definition BeforeOrEqual (nt t : t) : bool :=
  if time.IsZero (Time nt) && negb (time.IsZero (Time t)) then false
  else if negb (time.IsZero (Time nt)) && time.IsZero (Time t) then true
  else time.eqb (Time nt) (Time t) || time.Before (Time nt) (Time t).

End NullTime.

Module JSONNullInt64.

Import sql.NullInt64.

Definition t := sql.NullInt64.t.

Definition MarshalJSON (v : t) : bytes * option error :=
  if Valid v then json.Marshal (Int64 v)
  else json.Marshal_nil.

Definition UnmarshalJSON (v : t) (data : bytes) : t * option error :=
  let (x, err) := json.Unmarshal_ptr 0 data in
  match err with
  | Some err => (v, Some err)
  | None =>
      match x with
      | Some x => (mk x true, None)
      | None => (mk (Int64 v) false, None)
      end
  end.

Definition MapForRequest (v : t) : GoAny :=
  if Valid v then VInt64 (Int64 v) else VNil.

End JSONNullInt64.

Module JSONNullFloat64.

Import sql.NullFloat64.

Definition t := sql.NullFloat64.t.

Section Methods.

Context {FM : json.CanMarshal float64} {FU : json.CanUnmarshal float64}.

Definition MarshalJSON (v : t) : bytes * option error :=
  if Valid v then json.Marshal (Float64 v)
  else json.Marshal_nil.

Definition UnmarshalJSON (v : t) (data : bytes) : t * option error :=
  let (x, err) := json.Unmarshal_ptr (S754_zero false) data in
  match err with
  | Some err => (v, Some err)
  | None =>
      match x with
      | Some x => (mk x true, None)
      | None => (mk (Float64 v) false, None)
      end
  end.

End Methods.

Definition MapForRequest (v : t) : GoAny :=
  if Valid v then VFloat64 (Float64 v) else VNil.

End JSONNullFloat64.

(** ** The libraries on a fragment of their inputs

    Instances of the interfaces above that compute.  They follow
    [encoding/json], [time] and [database/sql] on strings of ASCII
    bytes, on floats that are whole numbers of magnitude at most 2^53,
    on calendar dates and on RFC 3339 timestamps in UTC without
    fraction; any other input is refused.  The general statements
    below hold for every instance; these ones run them on examples. *)

Module fragment.

Definition refused (what : string) : error := LibraryError "fragment" what.

(** *** Strings *)

Definition hex_digit (n : nat) : ascii :=
  match n with
  | 0%nat => "0" | 1%nat => "1" | 2%nat => "2" | 3%nat => "3"
  | 4%nat => "4" | 5%nat => "5" | 6%nat => "6" | 7%nat => "7"
  | 8%nat => "8" | 9%nat => "9" | 10%nat => "a" | 11%nat => "b"
  | 12%nat => "c" | 13%nat => "d" | 14%nat => "e" | _ => "f"
  end%char.

Definition backslash : ascii := ascii_of_nat 92.

Definition escaped (c : ascii) : string :=
  String backslash (String c EmptyString).

(** One byte of a string as [json.Marshal] writes it, HTML escaping
    included. *)
Definition escape_byte (c : ascii) : string :=
  let n := nat_of_ascii c in
  if (n =? 34)%nat || (n =? 92)%nat then escaped c
  else if (n =? 8)%nat then escaped "b"
  else if (n =? 12)%nat then escaped "f"
  else if (n =? 10)%nat then escaped "n"
  else if (n =? 13)%nat then escaped "r"
  else if (n =? 9)%nat then escaped "t"
  else if (n <? 32)%nat || (n =? 60)%nat || (n =? 62)%nat || (n =? 38)%nat
  then escaped "u" ++ "00"
       ++ String (hex_digit (n / 16))
            (String (hex_digit (n mod 16)) EmptyString)
  else String c EmptyString.

Fixpoint escape (s : string) : string :=
  match s with
  | EmptyString => EmptyString
  | String c rest => escape_byte c ++ escape rest
  end.

Definition Marshal_string (s : string) : bytes * option error :=
  (dquote ++ escape s ++ dquote, None).

Definition hex_value (c : ascii) : option nat :=
  let n := nat_of_ascii c in
  if (48 <=? n)%nat && (n <=? 57)%nat then Some (n - 48)%nat
  else if (97 <=? n)%nat && (n <=? 102)%nat then Some (n - 87)%nat
  else if (65 <=? n)%nat && (n <=? 70)%nat then Some (n - 55)%nat
  else None.

(** The text between the quotes of a string literal, decoded; [None]
    when it is not the inside of a literal, or leaves the fragment (an
    escape for a code point above 127). *)
Fixpoint unescape (s : string) : option string :=
  match s with
  | EmptyString => Some EmptyString
  | String c rest =>
      let n := nat_of_ascii c in
      if (n =? 92)%nat then
        match rest with
        | String e rest' =>
            let plain (c' : ascii) :=
              option_map (String c') (unescape rest') in
            let k := nat_of_ascii e in
            if (k =? 34)%nat || (k =? 92)%nat || (k =? 47)%nat then plain e
            else if (k =? 98)%nat then plain (ascii_of_nat 8)
            else if (k =? 102)%nat then plain (ascii_of_nat 12)
            else if (k =? 110)%nat then plain (ascii_of_nat 10)
            else if (k =? 114)%nat then plain (ascii_of_nat 13)
            else if (k =? 116)%nat then plain (ascii_of_nat 9)
            else if (k =? 117)%nat then
              match rest' with
              | String h1 (String h2 (String h3 (String h4 rest''))) =>
                  match hex_value h1, hex_value h2,
                        hex_value h3, hex_value h4 with
                  | Some 0%nat, Some 0%nat, Some a, Some b =>
                      if (a <? 8)%nat then
                        option_map (String (ascii_of_nat (16 * a + b)))
                                   (unescape rest'')
                      else None
                  | _, _, _, _ => None
                  end
              | _ => None
              end
            else None
        | EmptyString => None
        end
      else if (n =? 34)%nat || (n <? 32)%nat then None
      else option_map (String c) (unescape rest)
  end.

(** [s] without its last byte, when that byte is a double quote. *)
Fixpoint strip_closing_quote (s : string) : option string :=
  match s with
  | EmptyString => None
  | String c EmptyString =>
      if (nat_of_ascii c =? 34)%nat then Some EmptyString else None
  | String c rest => option_map (String c) (strip_closing_quote rest)
  end.

Definition expect (c : ascii) (s : string) : option string :=
  match s with
  | String c' rest => if Ascii.eqb c c' then Some rest else None
  | EmptyString => None
  end.

(** [s] without the prefix [p], when it starts with it. *)
Fixpoint expect_string (p s : string) : option string :=
  match p with
  | EmptyString => Some s
  | String c p' =>
      match expect c s with
      | Some rest => expect_string p' rest
      | None => None
      end
  end.

(** [s] without its last byte, when that byte is a closing brace. *)
Fixpoint strip_closing_brace (s : string) : option string :=
  match s with
  | EmptyString => None
  | String c EmptyString =>
      if (nat_of_ascii c =? 125)%nat then Some EmptyString else None
  | String c rest => option_map (String c) (strip_closing_brace rest)
  end.

Definition Unmarshal_string (data : bytes) (v : string)
  : string * option error :=
  let item := json.literal data in
  if (item =? "null")%string then (v, None)
  else
    match item with
    | String q rest =>
        if (nat_of_ascii q =? 34)%nat then
          match strip_closing_quote rest with
          | Some inside =>
              match unescape inside with
              | Some s => (s, None)
              | None => (v, Some (json.invalid data))
              end
          | None => (v, Some (json.invalid data))
          end
        else (v, Some (json.invalid data))
    | EmptyString => (v, Some (json.invalid data))
    end.

Definition string_CanMarshal : json.CanMarshal string :=
  {| json.Marshal := Marshal_string |}.

Definition string_CanUnmarshal : json.CanUnmarshal string :=
  {| json.Unmarshal := Unmarshal_string |}.

(** *** Floats *)

Definition two53 : Z := 9007199254740992.

(** [json.Marshal] refuses NaN and the infinities; a whole number is
    written without fraction. *)
Definition Marshal_float64 (f : float64) : bytes * option error :=
  match f with
  | S754_nan | S754_infinity _ =>
      (EmptyString, Some (LibraryError "encoding/json" "unsupported value"))
  | S754_zero s => (if s then "-0" else "0", None)
  | S754_finite s m e =>
      let a := Z.shiftl (Z.pos m) e in
      if (Z.shiftl a (- e) =? Z.pos m) && (a <=? two53) then
        (strconv.Itoa (if s then - a else a), None)
      else (EmptyString, Some (refused "float that is not a whole number"))
  end.

Fixpoint digits_value (s : string) (n : Z) : Z :=
  match s with
  | EmptyString => n
  | String c rest =>
      match strconv.digit_of c with
      | Some d => digits_value rest (n * 10 + d)
      | None => n
      end
  end.

(** The float nearest to the whole number that [item] writes. *)
Definition whole_number (item : string) : option float64 :=
  if json.is_int_literal item then
    match item with
    | String c rest =>
        if Ascii.eqb c "-" then
          Some (SFopp (binary_normalize 53 1024 (digits_value rest 0) 0 false))
        else Some (binary_normalize 53 1024 (digits_value item 0) 0 false)
    | EmptyString => None
    end
  else None.

Definition Unmarshal_float64 (data : bytes) (v : float64)
  : float64 * option error :=
  let item := json.literal data in
  if (item =? "null")%string then (v, None)
  else
    match whole_number item with
    | Some (S754_infinity _) => (v, Some (json.invalid data))
    | Some f => (f, None)
    | None => (v, Some (refused "number with fraction or exponent"))
    end.

Definition float64_CanMarshal : json.CanMarshal float64 :=
  {| json.Marshal := Marshal_float64 |}.

Definition float64_CanUnmarshal : json.CanUnmarshal float64 :=
  {| json.Unmarshal := Unmarshal_float64 |}.

(** [database/sql] has no conversion of a boolean, a slice or a map to
    a float; a string goes through [strconv.ParseFloat]. *)
Definition convert : SQLConvert :=
  {| convertAssign_float64 := fun value =>
       match value with
       | VString s =>
           match whole_number s with
           | Some (S754_infinity sign) =>
               (S754_infinity sign, Some (NumError "ParseFloat" s ErrRange))
           | Some f => (f, None)
           | None => (S754_zero false, Some (refused "number in text"))
           end
       | _ => (S754_zero false,
               Some (LibraryError "database/sql" "converting driver.Value"))
       end |}.

(** The text of a boolean is [true] or [false], which is not that of an
    integer; the text of a float is not written; a slice and a map
    have no conversion. *)
Definition text : SQLText :=
  {| convertAssign_int64 := fun value =>
       match value with
       | VBool b => (0, Some (conversion_error (if b then "true" else "false")))
       | VFloat64 _ => (0, Some (refused "float in text"))
       | _ => (0, Some (LibraryError "database/sql" "unsupported Scan"))
       end;
     convertAssign_string := fun value =>
       match value with
       | VBool b => (if b then "true" else "false", None)
       | VFloat64 _ => (EmptyString, Some (refused "float in text"))
       | _ => (EmptyString,
               Some (LibraryError "database/sql" "unsupported Scan"))
       end |}.

(** *** Interface values *)

Fixpoint join (parts : list string) : string :=
  match parts with
  | [] => EmptyString
  | [x] => x
  | x :: rest => x ++ "," ++ join rest
  end.

Definition array_of (parts : list string) : string :=
  "[" ++ join parts ++ "]".

Definition object_of (parts : list string) : string :=
  "{" ++ join parts ++ "}".

(** The encodings of the elements in order, or the first error. *)
Fixpoint encode_all {T : Type} (enc : T -> bytes * option error)
  (l : list T) : list bytes * option error :=
  match l with
  | [] => ([], None)
  | x :: rest =>
      match enc x with
      | (_, Some err) => ([], Some err)
      | (b, None) =>
          match encode_all enc rest with
          | (_, Some err) => ([], Some err)
          | (bs, None) => (b :: bs, None)
          end
      end
  end.

Definition Marshal_slice {T : Type} (enc : T -> bytes * option error)
  (s : slice T) : bytes * option error :=
  match s with
  | nil_slice => ("null", None)
  | make_slice l =>
      match encode_all enc l with
      | (_, Some err) => (EmptyString, Some err)
      | (bs, None) => (array_of bs, None)
      end
  end.

Fixpoint insert_member (m : string * bytes) (l : list (string * bytes))
  : list (string * bytes) :=
  match l with
  | [] => [m]
  | x :: rest =>
      if String.leb (fst m) (fst x) then m :: l
      else x :: insert_member m rest
  end.

(** The members of an object, by increasing key. *)
Definition sort_members (l : list (string * bytes))
  : list (string * bytes) :=
  fold_right insert_member [] l.

Definition member (m : string * bytes) : string :=
  fst (Marshal_string (fst m)) ++ ":" ++ snd m.

Definition Marshal_Label (l : Label) : bytes * option error :=
  match NullEmptyString.MarshalJSON (SM := string_CanMarshal) (Label_Label l)
  with
  | (_, Some err) => (EmptyString, Some err)
  | (b, None) => (object_of [member ("label", b)], None)
  end.

Fixpoint Marshal_any (v : GoAny) : bytes * option error :=
  match v with
  | VNil => json.Marshal_nil
  | VBool b => json.Marshal_bool b
  | VInt i | VInt64 i => json.Marshal_int64 i
  | VFloat64 f => Marshal_float64 f
  | VString s => Marshal_string s
  | VSliceAny nil_slice => ("null", None)
  | VSliceAny (make_slice l) =>
      let fix all (l : list GoAny) : list bytes * option error :=
        match l with
        | [] => ([], None)
        | x :: rest =>
            match Marshal_any x with
            | (_, Some err) => ([], Some err)
            | (b, None) =>
                match all rest with
                | (_, Some err) => ([], Some err)
                | (bs, None) => (b :: bs, None)
                end
            end
        end in
      match all l with
      | (_, Some err) => (EmptyString, Some err)
      | (bs, None) => (array_of bs, None)
      end
  | VMapAny m =>
      let fix all (m : list (string * GoAny))
        : list (string * bytes) * option error :=
        match m with
        | [] => ([], None)
        | (k, x) :: rest =>
            match Marshal_any x with
            | (_, Some err) => ([], Some err)
            | (b, None) =>
                match all rest with
                | (_, Some err) => ([], Some err)
                | (bs, None) => ((k, b) :: bs, None)
                end
            end
        end in
      match all m with
      | (_, Some err) => (EmptyString, Some err)
      | (ms, None) => (object_of (map member (sort_members ms)), None)
      end
  | VSliceBool s => Marshal_slice json.Marshal_bool s
  | VSliceInt s => Marshal_slice json.Marshal_int64 s
  | VSliceString s => Marshal_slice Marshal_string s
  | VSliceLabel s => Marshal_slice Marshal_Label s
  end.

Definition any_CanMarshal : json.CanMarshal GoAny :=
  {| json.Marshal := Marshal_any |}.

(** [json.Unmarshal] into a [Label], for an object with the member
    [label] alone, or with no member: the text of the member's value
    goes to [NullEmptyString.UnmarshalJSON]. *)
Definition Unmarshal_Label (data : bytes) (v : Label) : Label * option error :=
  let item := json.literal data in
  if (item =? "null")%string then (v, None)
  else
    match expect "{" item with
    | None => (v, Some (json.invalid data))
    | Some s =>
        let s := json.skip_space s in
        if (s =? "}")%string then (v, None)
        else
          match expect_string (dquote ++ "label" ++ dquote) s with
          | None => (v, Some (refused "object with other members"))
          | Some s =>
              match expect ":" (json.skip_space s) with
              | None => (v, Some (json.invalid data))
              | Some s =>
                  match strip_closing_brace s with
                  | None => (v, Some (json.invalid data))
                  | Some raw =>
                      let (ns, err) :=
                        NullEmptyString.UnmarshalJSON
                          (SU := string_CanUnmarshal)
                          (Label_Label v) (json.literal raw) in
                      ({| Label_Label := ns |}, err)
                  end
              end
          end
    end.

Definition Label_CanUnmarshal : json.CanUnmarshal Label :=
  {| json.Unmarshal := Unmarshal_Label |}.

(** *** Dates *)

Definition nanos_per_second : Z := 1000000000.
Definition nanos_per_day : Z := 86400 * nanos_per_second.

(** Year, month and day of the day that is [days] after January 1 of
    year 1, in the proleptic Gregorian calendar. *)
Definition civil_from_days (days : Z) : Z * Z * Z :=
  let z := days + 306 in
  let era := z / 146097 in
  let doe := z - era * 146097 in
  let yoe := (doe - doe / 1460 + doe / 36524 - doe / 146096) / 365 in
  let doy := doe - (365 * yoe + yoe / 4 - yoe / 100) in
  let mp := (5 * doy + 2) / 153 in
  let d := doy - (153 * mp + 2) / 5 + 1 in
  let m := if mp <? 10 then mp + 3 else mp - 9 in
  let y := yoe + era * 400 + (if m <=? 2 then 1 else 0) in
  (y, m, d).

Definition days_from_civil (y m d : Z) : Z :=
  let y := if m <=? 2 then y - 1 else y in
  let era := y / 400 in
  let yoe := y - era * 400 in
  let doy := (153 * (if 2 <? m then m - 3 else m + 9) + 2) / 5 + d - 1 in
  let doe := yoe * 365 + yoe / 4 - yoe / 100 + doy in
  era * 146097 + doe - 306.

Fixpoint zeros (n : nat) : string :=
  match n with
  | O => EmptyString
  | S n => String "0" (zeros n)
  end.

(** A number on at least [width] digits, as the layouts print it. *)
Definition padded (width : nat) (n : Z) : string :=
  let ds := strconv.Itoa (Z.abs n) in
  (if n <? 0 then "-" else EmptyString)
  ++ zeros (width - String.length ds) ++ ds.

Definition format_date (t : time.Time) : string :=
  let '(y, m, d) := civil_from_days (time.nanos t / nanos_per_day) in
  padded 4 y ++ "-" ++ padded 2 m ++ "-" ++ padded 2 d.

Definition format_clock (t : time.Time) : string :=
  let secs := (time.nanos t mod nanos_per_day) / nanos_per_second in
  padded 2 (secs / 3600) ++ ":" ++ padded 2 (secs / 60 mod 60)
  ++ ":" ++ padded 2 (secs mod 60).

Definition Format (t : time.Time) (layout : string) : string :=
  if (layout =? "2006-01-02")%string then format_date t
  else if (layout =? time.RFC3339)%string then
    format_date t ++ "T" ++ format_clock t ++ "Z"
  else EmptyString.

(** Exactly [k] digits at the head of [s]: their value and the rest. *)
Fixpoint take_digits (k : nat) (s : string) (n : Z) : option (Z * string) :=
  match k with
  | O => Some (n, s)
  | S k =>
      match s with
      | String c rest =>
          match strconv.digit_of c with
          | Some d => take_digits k rest (n * 10 + d)
          | None => None
          end
      | EmptyString => None
      end
  end.

Definition is_leap (y : Z) : bool :=
  (y mod 4 =? 0) && (negb (y mod 100 =? 0) || (y mod 400 =? 0)).

Definition days_in (y m : Z) : Z :=
  if m =? 2 then (if is_leap y then 29 else 28)
  else if (m =? 4) || (m =? 6) || (m =? 9) || (m =? 11) then 30
  else 31.

(** A date [YYYY-MM-DD] at the head of [s]: its day number and the
    rest. *)
Definition take_date (s : string) : option (Z * string) :=
  match take_digits 4 s 0 with
  | Some (y, s) =>
      match expect "-" s with
      | Some s =>
          match take_digits 2 s 0 with
          | Some (m, s) =>
              match expect "-" s with
              | Some s =>
                  match take_digits 2 s 0 with
                  | Some (d, s) =>
                      if (1 <=? m) && (m <=? 12)
                         && (1 <=? d) && (d <=? days_in y m)
                      then Some (days_from_civil y m d, s)
                      else None
                  | None => None
                  end
              | None => None
              end
          | None => None
          end
      | None => None
      end
  | None => None
  end.

(** A clock [HH:MM:SS] at the head of [s]: its seconds and the rest. *)
Definition take_clock (s : string) : option (Z * string) :=
  match take_digits 2 s 0 with
  | Some (h, s) =>
      match expect ":" s with
      | Some s =>
          match take_digits 2 s 0 with
          | Some (mi, s) =>
              match expect ":" s with
              | Some s =>
                  match take_digits 2 s 0 with
                  | Some (sec, s) =>
                      if (h <? 24) && (mi <? 60) && (sec <? 60)
                      then Some (h * 3600 + mi * 60 + sec, s)
                      else None
                  | None => None
                  end
              | None => None
              end
          | None => None
          end
      | None => None
      end
  | None => None
  end.

Definition parse_error (layout value : string) : error :=
  LibraryError "time" ("parsing time " ++ value ++ " as " ++ layout).

Definition quote : ascii := ascii_of_nat 34.

Definition Parse (layout value : string) : time.Time * option error :=
  let failure := (time.zero, Some (parse_error layout value)) in
  if (layout =? dquote ++ "2006-01-02" ++ dquote)%string then
    match expect quote value with
    | Some s =>
        match take_date s with
        | Some (days, s) =>
            if (s =? dquote)%string then
              ({| time.nanos := days * nanos_per_day; time.loc := 0 |}, None)
            else failure
        | None => failure
        end
    | None => failure
    end
  else if (layout =? dquote ++ time.RFC3339 ++ dquote)%string then
    match expect quote value with
    | Some s =>
        match take_date s with
        | Some (days, s) =>
            match expect "T" s with
            | Some s =>
                match take_clock s with
                | Some (secs, s) =>
                    if (s =? "Z" ++ dquote)%string then
                      ({| time.nanos := days * nanos_per_day
                                        + secs * nanos_per_second;
                          time.loc := 0 |}, None)
                    else failure
                | None => failure
                end
            | None => failure
            end
        | None => failure
        end
    | None => failure
    end
  else failure.

Definition layouts : TimeLayouts :=
  {| time_Parse := Parse; time_Format := Format |}.

End fragment.

(** ** Scanning a time

    [NullTime.Scan] reads the zone and the calendar date of the scanned
    time in its location, and builds the midnight of a date in UTC. *)

(** A value handed to [NullTime.Scan]: a [time.Time], or an interface
    value of another dynamic type. *)
Inductive Scanned : Type :=
| ATime (t : time.Time)
| AValue (v : GoAny).

(** The zone in effect in a location at an instant: its abbreviation
    and its offset east of UTC, in seconds.  The locations other than
    UTC are those of the time zone database and of [time.FixedZone]. *)
Class Locations := { lookup : Z -> Z -> string * Z }.

(** Every location other than UTC is [time.FixedZone(name, offset)]. *)
Definition FixedZone (name : string) (offset : Z) : Locations :=
  {| lookup := fun _ _ => (name, offset) |}.

Section Scanning_a_time.

Context {Ls : Locations}.

(** [t.Zone()] *)
Definition time_Zone (t : time.Time) : string * Z :=
  if time.loc t =? 0 then ("UTC", 0)
  else lookup (time.loc t) (time.nanos t).

(** The day of [t] on the calendar of its location, counted from
    January 1 of year 1. *)
Definition local_day (t : time.Time) : Z :=
  (time.nanos t + snd (time_Zone t) * fragment.nanos_per_second)
  / fragment.nanos_per_day.

Definition time_Year (t : time.Time) : Z :=
  let '(year, _, _) := fragment.civil_from_days (local_day t) in year.

Definition time_Month (t : time.Time) : Z :=
  let '(_, month, _) := fragment.civil_from_days (local_day t) in month.

Definition time_Day (t : time.Time) : Z :=
  let '(_, _, day) := fragment.civil_from_days (local_day t) in day.

(** [time.Date(year, month, day, 0, 0, 0, 0, time.UTC)], for a month
    from 1 to 12. *)
Definition time_Date (year month day : Z) : time.Time :=
  {| time.nanos :=
       fragment.days_from_civil year month day * fragment.nanos_per_day;
     time.loc := 0 |}.

(** [sql.NullTime.Scan] on a fresh variable: only a [time.Time] can be
    stored as a time. *)
Definition NullTime_sql_Scan (value : Scanned)
  : NullTime.t * option error :=
  match value with
  | AValue VNil => (sql.NullTime.mk time.zero false, None)
  | ATime t => (sql.NullTime.mk t true, None)
  | AValue _ =>
      (sql.NullTime.mk time.zero true,
       Some (LibraryError "database/sql" "unsupported Scan"))
  end.

Definition NullTime_Scan (nt : NullTime.t) (value : Scanned)
  : NullTime.t * option error :=
  let nt := match value with
            | AValue VNil => sql.NullTime.mk time.zero false
            | _ => nt
            end in
  let (i, err) := NullTime_sql_Scan value in
  match err with
  | Some err => (nt, Some err)
  | None =>
      let (zone, _) := time_Zone (sql.NullTime.Time i) in
      let nt :=
        if negb (zone =? "UTC")%string then
          sql.NullTime.mk
            (time_Date (time_Year (sql.NullTime.Time i))
                       (time_Month (sql.NullTime.Time i))
                       (time_Day (sql.NullTime.Time i)))
            true
        else i in
      if time.IsZero (sql.NullTime.Time nt) then
        (sql.NullTime.mk (sql.NullTime.Time nt) false, None)
      else (nt, None)
  end.

End Scanning_a_time.

(** ** The mock of the tests *)

Definition MockPageableLabel (labels : list string) : Pageable :=
  let data :=
    fold_left
      (fun data value => append data (VMapAny [("label", VString value)]))
      labels nil_slice in
  {| Pageable_Limit := 999999;
     Pageable_Offset := 0;
     Total := Z.of_nat (List.length (slice_elems data));
     Data := VSliceAny data |}.

(** The label that a JSON decode makes of a string. *)
Definition valid_label (value : string) : Label :=
  {| Label_Label := sql.NullString.mk value true |}.

(** ** Notions used in the statements *)

(** The element [value] of a decoded payload comes out as [x]: it is
    encoded without error and the bytes decode, into a zero [T],
    without error to [x]. *)
Definition decodes_to {T : Type} {G : GoType T}
  {A : json.CanMarshal GoAny} {C : json.CanUnmarshal T}
  (value : GoAny) (x : T) : Prop :=
  exists jsonBytes,
    json.Marshal value = (jsonBytes, None)
    /\ json.Unmarshal jsonBytes zero_value = (x, None).

(** The library reads back [v] from what it writes for it, into a
    variable holding [old]; what it writes is neither [null] nor
    empty. *)
Definition round_trips {T : Type}
  {M : json.CanMarshal T} {U : json.CanUnmarshal T} (v old : T) : Prop :=
  exists b,
    json.Marshal v = (b, None)
    /\ b <> "null" /\ b <> EmptyString
    /\ json.Unmarshal b old = (v, None).

(** An offending parameter, in the words of the spec: [key] is present
    in the query and its first value does not parse as an [int], or
    parses as a negative one. *)
Definition offending (c : gin.Context) (key : string) : bool :=
  match gin.GetQueryArray c key with
  | None => false
  | Some (v, _) =>
      match strconv.Atoi v with
      | (_, Some _) => true
      | (n, None) => n <? 0
      end
  end.

Definition failed {A : Type} (r : A * option error) : bool :=
  match snd r with
  | Some _ => true
  | None => false
  end.

(** The tie-break of the comparison helpers, in the words of the spec:
    when exactly one of the two times is the zero time, the comparison
    is decided for the non-zero side, that is, it holds exactly when
    the receiver is the non-zero one. *)
Definition favours_non_zero_side
  (compare : NullTime.t -> NullTime.t -> bool) : Prop :=
  forall nt t : NullTime.t,
    time.IsZero (sql.NullTime.Time nt) <> time.IsZero (sql.NullTime.Time t) ->
    compare nt t = negb (time.IsZero (sql.NullTime.Time nt)).

(** January 1, 2000, 00:00:00 UTC. *)
Definition y2000 : time.Time :=
  {| time.nanos := 63082281600000000000; time.loc := 0 |}.

(** The value of the digits [d] read after [n]. *)
Fixpoint uint_value (d : Decimal.uint) (n : Z) : Z :=
  match d with
  | Decimal.Nil => n
  | Decimal.D0 l => uint_value l (n * 10 + 0)
  | Decimal.D1 l => uint_value l (n * 10 + 1)
  | Decimal.D2 l => uint_value l (n * 10 + 2)
  | Decimal.D3 l => uint_value l (n * 10 + 3)
  | Decimal.D4 l => uint_value l (n * 10 + 4)
  | Decimal.D5 l => uint_value l (n * 10 + 5)
  | Decimal.D6 l => uint_value l (n * 10 + 6)
  | Decimal.D7 l => uint_value l (n * 10 + 7)
  | Decimal.D8 l => uint_value l (n * 10 + 8)
  | Decimal.D9 l => uint_value l (n * 10 + 9)
  end.

(** Case analysis on the result of the library call of the goal. *)
Ltac library_call :=
  match goal with
  | |- context [@json.Unmarshal ?T ?I ?a ?b] =>
      destruct (@json.Unmarshal T I a b) as [? [?|]]
  | |- context [@time_Parse ?I ?a ?b] =>
      destruct (@time_Parse I a b) as [? [?|]]
  end.

(** * Decimal text of integers: what is written is read back *)

Lemma uint_value_ge (d : Decimal.uint) :
  forall n, 0 <= n -> n <= uint_value d n.
Proof.
  induction d; intros n Hn; cbn [uint_value]; try lia;
    (etransitivity; [|apply IHd]; lia).
Qed.

Lemma ParseUint_loop_step (c : ascii) (rest : string) (k n : Z) :
  strconv.digit_of c = Some k -> 0 <= k <= 9 -> 0 <= n ->
  n * 10 + k <= strconv.maxUint64 ->
  strconv.ParseUint_loop (String c rest) n
  = strconv.ParseUint_loop rest (n * 10 + k).
Proof.
  unfold strconv.maxUint64. intros Hc Hk Hn Hmax.
  cbn [strconv.ParseUint_loop]. rewrite Hc. cbv zeta.
  unfold strconv.maxUint64.
  change (18446744073709551615 / 10 + 1) with 1844674407370955162.
  change (18446744073709551615 + 1) with 18446744073709551616.
  destruct (1844674407370955162 <=? n) eqn:Hcut;
    [apply Z.leb_le in Hcut; lia|].
  rewrite Z.mod_small by lia.
  replace ((n * 10 + k <? n * 10) || (18446744073709551615 <? n * 10 + k))
    with false; [reflexivity|].
  symmetry. apply orb_false_iff. split; apply Z.ltb_ge; lia.
Qed.

Lemma ParseUint_loop_string_of_uint (d : Decimal.uint) :
  forall n, 0 <= n -> uint_value d n <= strconv.maxUint64 ->
  strconv.ParseUint_loop (NilEmpty.string_of_uint d) n = inl (uint_value d n).
Proof.
  induction d; intros n Hn Hmax;
    cbn [uint_value NilEmpty.string_of_uint] in *;
    try reflexivity.
  all: match type of Hmax with
       | uint_value _ (_ * 10 + ?k) <= _ =>
           pose proof (uint_value_ge d (n * 10 + k) ltac:(lia)) as Hge;
           unfold strconv.maxUint64 in *;
           match goal with
           | |- strconv.ParseUint_loop (String ?c ?r) _ = _ =>
               rewrite (ParseUint_loop_step c r k n eq_refl)
                 by (unfold strconv.maxUint64; lia)
           end;
           apply IHd; lia
       end.
Qed.

Lemma of_uint_acc_value (d : Decimal.uint) :
  forall acc, Z.pos (Pos.of_uint_acc d acc) = uint_value d (Z.pos acc).
Proof.
  induction d; intros acc; cbn [Pos.of_uint_acc uint_value];
    try reflexivity; rewrite IHd; f_equal; lia.
Qed.

Lemma of_uint_value (d : Decimal.uint) :
  Z.of_N (Pos.of_uint d) = uint_value d 0.
Proof.
  induction d; cbn [Pos.of_uint uint_value]; try reflexivity;
    try (cbn [Z.of_N]; rewrite of_uint_acc_value; reflexivity).
  exact IHd.
Qed.

Lemma uint_value_to_uint (p : positive) :
  uint_value (Pos.to_uint p) 0 = Z.pos p.
Proof.
  rewrite <- of_uint_value, DecimalPos.Unsigned.of_to. reflexivity.
Qed.

Lemma ParseUint_to_uint (p : positive) :
  Z.pos p <= strconv.maxUint64 ->
  strconv.ParseUint (NilEmpty.string_of_uint (Pos.to_uint p)) = inl (Z.pos p).
Proof.
  intros Hmax. unfold strconv.ParseUint.
  rewrite ParseUint_loop_string_of_uint
    by (rewrite ?uint_value_to_uint; lia).
  rewrite uint_value_to_uint.
  destruct (NilEmpty.string_of_uint (Pos.to_uint p)) eqn:E; [|reflexivity].
  exfalso. apply (DecimalPos.Unsigned.to_uint_nonnil p).
  destruct (Pos.to_uint p); try discriminate E. reflexivity.
Qed.

(** The digits written for a number: no sign, no space, and no zero in
    front. *)
Lemma string_of_uint_digits (d : Decimal.uint) :
  json.all_digits (NilEmpty.string_of_uint d) = true.
Proof. induction d; cbn; auto. Qed.

Lemma digit_not_space (c : ascii) :
  json.is_digit c = true -> json.is_space c = false.
Proof.
  destruct c as [[] [] [] [] [] [] [] []]; vm_compute; congruence.
Qed.

Lemma all_digits_no_trailing_space (s : string) :
  json.all_digits s = true -> json.drop_trailing_space s = s.
Proof.
  induction s as [|c s IH]; [reflexivity|]. cbn. intros H.
  apply andb_true_iff in H as [Hc Hs]. rewrite (IH Hs).
  destruct s; [|reflexivity]. now rewrite (digit_not_space c Hc).
Qed.

Lemma all_digits_literal (s : string) :
  json.all_digits s = true -> json.literal s = s.
Proof.
  unfold json.literal. intros H.
  assert (Hskip : json.skip_space s = s).
  { destruct s as [|c s]; [reflexivity|]. cbn in *.
    apply andb_true_iff in H as [Hc _]. now rewrite (digit_not_space c Hc). }
  rewrite Hskip. now apply all_digits_no_trailing_space.
Qed.

Lemma minus_all_digits_literal (s : string) :
  json.all_digits s = true -> json.literal (String "-" s) = String "-" s.
Proof.
  intros H. unfold json.literal. cbn [json.skip_space].
  change (json.is_space "-") with false. cbv iota.
  cbn [json.drop_trailing_space].
  rewrite (all_digits_no_trailing_space s H).
  destruct s; reflexivity.
Qed.

(** The first digit written for a positive number is not 0. *)
Lemma nzhead_head (d : Decimal.uint) :
  match Decimal.nzhead d with
  | Decimal.D0 _ => False
  | _ => True
  end.
Proof. induction d; cbn; auto. Qed.

Lemma to_uint_head (p : positive) :
  match Pos.to_uint p with
  | Decimal.Nil | Decimal.D0 _ => False
  | _ => True
  end.
Proof.
  pose proof (DecimalN.Unsigned.to_of (Pos.to_uint p)) as H.
  change (N.of_uint (Pos.to_uint p)) with (Pos.of_uint (Pos.to_uint p)) in H.
  rewrite DecimalPos.Unsigned.of_to in H. cbn [N.to_uint] in H.
  pose proof (DecimalPos.Unsigned.to_uint_nonnil p) as Hnil.
  pose proof (nzhead_head (Pos.to_uint p)) as Hnz.
  unfold Decimal.unorm in H.
  destruct (Decimal.nzhead (Pos.to_uint p)) eqn:E; rewrite H in *;
    try exact I; try contradiction.
  exfalso. apply (DecimalPos.Unsigned.to_uint_nonzero p). congruence.
Qed.

Lemma is_int_literal_to_uint (p : positive) :
  json.is_int_literal (NilEmpty.string_of_uint (Pos.to_uint p)) = true
  /\ json.is_int_literal
       (String "-" (NilEmpty.string_of_uint (Pos.to_uint p))) = true.
Proof.
  pose proof (to_uint_head p) as H.
  pose proof (string_of_uint_digits (Pos.to_uint p)) as Hd.
  destruct (Pos.to_uint p); try contradiction;
    cbn [NilEmpty.string_of_uint] in *; cbn in Hd |- *; auto.
Qed.

Lemma not_null_to_uint (d : Decimal.uint) :
  NilEmpty.string_of_uint d <> "null"
  /\ String "-" (NilEmpty.string_of_uint d) <> "null".
Proof. destruct d; split; discriminate. Qed.

Lemma Itoa_not_null (i : Z) : strconv.Itoa i <> "null".
Proof.
  unfold strconv.Itoa. destruct i; cbn; try discriminate;
    apply not_null_to_uint.
Qed.

Lemma Itoa_literal (i : Z) : json.literal (strconv.Itoa i) = strconv.Itoa i.
Proof.
  unfold strconv.Itoa.
  destruct i as [|p|p]; cbn [Z.to_int NilEmpty.string_of_int].
  - reflexivity.
  - apply all_digits_literal, string_of_uint_digits.
  - apply minus_all_digits_literal, string_of_uint_digits.
Qed.

Lemma ParseInt_Itoa (i : Z) :
  MinInt64 <= i <= MaxInt64 -> strconv.ParseInt (strconv.Itoa i) = (i, None).
Proof.
  unfold MinInt64, MaxInt64, strconv.Itoa. intros Hi.
  destruct i as [|p|p]; cbn [Z.to_int NilEmpty.string_of_int].
  - reflexivity.
  - pose proof (to_uint_head p) as Hh.
    pose proof (ParseUint_to_uint p) as Hp.
    unfold strconv.maxUint64 in Hp. specialize (Hp ltac:(lia)).
    unfold strconv.ParseInt.
    destruct (Pos.to_uint p); try contradiction;
      cbn [NilEmpty.string_of_uint] in *;
      match goal with
      | |- context [Ascii.eqb ?c "-"] =>
          change (Ascii.eqb c "-") with false;
          change (Ascii.eqb c "+") with false
      end; cbn [orb negb andb]; rewrite Hp;
      (replace (9223372036854775808 <=? Z.pos p) with false
        by (symmetry; apply Z.leb_gt; lia)); reflexivity.
  - pose proof (ParseUint_to_uint p) as Hp.
    unfold strconv.maxUint64 in Hp. specialize (Hp ltac:(lia)).
    unfold strconv.ParseInt.
    change (Ascii.eqb "-" "-") with true.
    change (Ascii.eqb "-" "+") with false.
    cbn [orb negb andb]. rewrite Hp.
    replace (9223372036854775808 <? Z.pos p) with false
      by (symmetry; apply Z.ltb_ge; lia).
    reflexivity.
Qed.

Lemma Unmarshal_int64_Itoa (i v : Z) :
  MinInt64 <= i <= MaxInt64 ->
  json.Unmarshal_int64 (strconv.Itoa i) v = (i, None).
Proof.
  intros Hi. unfold json.Unmarshal_int64.
  rewrite Itoa_literal.
  destruct (String.eqb_spec (strconv.Itoa i) "null") as [E|_];
    [now destruct (Itoa_not_null i)|].
  assert (Hlit : json.is_int_literal (strconv.Itoa i) = true).
  { unfold strconv.Itoa. destruct i as [|p|p];
      cbn [Z.to_int NilEmpty.string_of_int];
      [reflexivity|apply is_int_literal_to_uint..]. }
  rewrite Hlit, (ParseInt_Itoa i Hi). reflexivity.
Qed.

(** * Pagination parsing *)

Lemma Atoi_Itoa (i : Z) :
  MinInt64 <= i <= MaxInt64 -> strconv.Atoi (strconv.Itoa i) = (i, None).
Proof.
  intros Hi. unfold strconv.Atoi. now rewrite (ParseInt_Itoa i Hi).
Qed.

Example Atoi_examples :
  strconv.Atoi "42" = (42, None) /\
  strconv.Atoi "-2" = (-2, None) /\
  strconv.Atoi "+7" = (7, None) /\
  strconv.Atoi "pouet" = (0, Some (NumError "Atoi" "pouet" ErrSyntax)) /\
  strconv.Atoi EmptyString
    = (0, Some (NumError "Atoi" EmptyString ErrSyntax)) /\
  strconv.Atoi "9223372036854775808"
    = (MaxInt64, Some (NumError "Atoi" "9223372036854775808" ErrRange)) /\
  strconv.Atoi "-9223372036854775808" = (MinInt64, None).
Proof. repeat split; reflexivity. Qed.

Section GetFromURLQuery_facts.

Context {K : Constants}.
Variable c : gin.Context.

(** The constants are of type [int] and, as defaults, not negative. *)
Hypothesis DefaultOffset_range : 0 <= DefaultOffset <= MaxInt64.
Hypothesis DefaultLimit500_range : 0 <= DefaultLimit500 <= MaxInt64.

Lemma DefaultQuery_absent (key d : string) :
  gin.GetQueryArray c key = None -> gin.DefaultQuery c key d = d.
Proof.
  intros H. unfold gin.DefaultQuery, gin.GetQuery. now rewrite H.
Qed.

Lemma DefaultQuery_present (key d v : string) (vs : list string) :
  gin.GetQueryArray c key = Some (v, vs) -> gin.DefaultQuery c key d = v.
Proof.
  intros H. unfold gin.DefaultQuery, gin.GetQuery. now rewrite H.
Qed.

Lemma offending_absent (key : string) :
  gin.GetQueryArray c key = None -> offending c key = false.
Proof. intros H. unfold offending. now rewrite H. Qed.

(** What [GetFromURLQuery] reads for [key]: the value and the error of
    [Atoi] on the parameter, or the default when it is absent. *)
Lemma Atoi_DefaultQuery (key : string) (d : Z) :
  0 <= d <= MaxInt64 ->
  match gin.GetQueryArray c key with
  | Some (v, _) =>
      strconv.Atoi (gin.DefaultQuery c key (strconv.Itoa d)) = strconv.Atoi v
  | None =>
      strconv.Atoi (gin.DefaultQuery c key (strconv.Itoa d)) = (d, None)
  end.
Proof.
  intros Hd. destruct (gin.GetQueryArray c key) as [[v vs]|] eqn:Hq.
  - now rewrite (DefaultQuery_present _ _ _ _ Hq).
  - rewrite (DefaultQuery_absent _ _ Hq). apply Atoi_Itoa.
    unfold MinInt64, MaxInt64 in *. lia.
Qed.

(** The outcome of [GetFromURLQuery], case by case on the two
    parameters. *)
Lemma GetFromURLQuery_cases :
  match offending c "offset", offending c "limit" with
  | true, _ =>
      exists cause,
        GetFromURLQuery c
        = (Pagination_zero, Some (BadRequestValueError "offset" VNil cause))
  | false, true =>
      exists cause,
        GetFromURLQuery c
        = (Pagination_zero, Some (BadRequestValueError "limit" VNil cause))
  | false, false =>
      exists offset limit,
        GetFromURLQuery c = ({| Offset := offset; Limit := limit |}, None)
        /\ 0 <= offset /\ 0 <= limit
        /\ (gin.GetQueryArray c "offset" = None -> offset = DefaultOffset)
        /\ (gin.GetQueryArray c "limit" = None -> limit = DefaultLimit500)
  end.
Proof.
  pose proof (Atoi_DefaultQuery "offset" _ DefaultOffset_range) as Ho.
  pose proof (Atoi_DefaultQuery "limit" _ DefaultLimit500_range) as Hl.
  unfold offending, GetFromURLQuery.
  destruct (gin.GetQueryArray c "offset") as [[vo vso]|];
    rewrite Ho; clear Ho.
  - destruct (strconv.Atoi vo) as [offset [eo|]]; [eauto|].
    destruct (offset <? 0) eqn:Hneg; [eauto|]. apply Z.ltb_ge in Hneg.
    destruct (gin.GetQueryArray c "limit") as [[vl vsl]|];
      rewrite Hl; clear Hl.
    + destruct (strconv.Atoi vl) as [limit [el|]]; [eauto|].
      destruct (limit <? 0) eqn:Hnegl; [eauto|]. apply Z.ltb_ge in Hnegl.
      exists offset, limit. repeat split; auto; discriminate.
    + destruct (DefaultLimit500 <? 0) eqn:Hnegl;
        [apply Z.ltb_lt in Hnegl; lia|].
      exists offset, DefaultLimit500.
      repeat split; auto; try discriminate; lia.
  - destruct (DefaultOffset <? 0) eqn:Hneg; [apply Z.ltb_lt in Hneg; lia|].
    destruct (gin.GetQueryArray c "limit") as [[vl vsl]|];
      rewrite Hl; clear Hl.
    + destruct (strconv.Atoi vl) as [limit [el|]]; [eauto|].
      destruct (limit <? 0) eqn:Hnegl; [eauto|]. apply Z.ltb_ge in Hnegl.
      exists DefaultOffset, limit.
      repeat split; auto; try discriminate; lia.
    + destruct (DefaultLimit500 <? 0) eqn:Hnegl;
        [apply Z.ltb_lt in Hnegl; lia|].
      exists DefaultOffset, DefaultLimit500. repeat split; auto; lia.
Qed.

(** An absent [offset] is read as [DefaultOffset] and an absent [limit]
    as [DefaultLimit500], whatever the other parameter is as long as it
    is acceptable. *)
Lemma GetFromURLQuery_absent :
  (gin.GetQueryArray c "offset" = None ->
   offending c "limit" = false ->
   exists limit,
     GetFromURLQuery c
     = ({| Offset := DefaultOffset; Limit := limit |}, None))
  /\ (gin.GetQueryArray c "limit" = None ->
      offending c "offset" = false ->
      exists offset,
        GetFromURLQuery c
        = ({| Offset := offset; Limit := DefaultLimit500 |}, None))
  /\ (gin.GetQueryArray c "offset" = None ->
      gin.GetQueryArray c "limit" = None ->
      GetFromURLQuery c
      = ({| Offset := DefaultOffset; Limit := DefaultLimit500 |}, None)).
Proof.
  pose proof GetFromURLQuery_cases as H.
  split; [|split].
  - intros Ho Hl. rewrite (offending_absent _ Ho), Hl in H.
    destruct H as (offset & limit & E & _ & _ & Hoff & _).
    exists limit. rewrite E, (Hoff Ho). reflexivity.
  - intros Hl Ho. rewrite Ho, (offending_absent _ Hl) in H.
    destruct H as (offset & limit & E & _ & _ & _ & Hlim).
    exists offset. rewrite E, (Hlim Hl). reflexivity.
  - intros Ho Hl.
    rewrite (offending_absent _ Ho), (offending_absent _ Hl) in H.
    destruct H as (offset & limit & E & _ & _ & Hoff & Hlim).
    rewrite E, (Hoff Ho), (Hlim Hl). reflexivity.
Qed.

(** C3: [GetFromURLQuery] fails exactly when [offset] or [limit] is
    offending (present, and unparsable or negative); the failure carries
    the zero [Pagination] and a [BadRequestValueError] whose key is an
    offending one; [offset=-1] and [limit=-1] always fail. *)
Theorem GetFromURLQuery_fails_iff_offending :
  (failed (GetFromURLQuery c) = true <->
   offending c "offset" = true \/ offending c "limit" = true)
  /\ (forall e, snd (GetFromURLQuery c) = Some e ->
      fst (GetFromURLQuery c) = Pagination_zero
      /\ exists key cause,
          e = BadRequestValueError key VNil cause
          /\ (key = "offset" \/ key = "limit")
          /\ offending c key = true)
  /\ (forall vs, gin.GetQueryArray c "offset" = Some ("-1", vs) ->
      failed (GetFromURLQuery c) = true)
  /\ (forall vs, gin.GetQueryArray c "limit" = Some ("-1", vs) ->
      failed (GetFromURLQuery c) = true).
Proof.
  pose proof GetFromURLQuery_cases as H.
  assert (Hiff : failed (GetFromURLQuery c) = true <->
                 offending c "offset" = true \/ offending c "limit" = true).
  { destruct (offending c "offset"), (offending c "limit");
      try (destruct H as [cause E]; rewrite E; cbn; intuition congruence).
    destruct H as (o & l & E & _). rewrite E. cbn. intuition congruence. }
  split; [exact Hiff|]. split; [|split].
  - intros e He.
    destruct (offending c "offset") eqn:Ho.
    + destruct H as [cause E]. rewrite E in *. cbn in *.
      injection He as <-. split; [reflexivity|].
      exists "offset", cause. auto.
    + destruct (offending c "limit") eqn:Hl.
      * destruct H as [cause E]. rewrite E in *. cbn in *.
        injection He as <-. split; [reflexivity|].
        exists "limit", cause. auto.
      * destruct H as (o & l & E & _). rewrite E in He. discriminate.
  - intros vs Hq. apply Hiff. left. unfold offending. now rewrite Hq.
  - intros vs Hq. apply Hiff. right. unfold offending. now rewrite Hq.
Qed.

End GetFromURLQuery_facts.

(** C7: with the constants 0 and 500, an absent [offset] is read as 0
    and an absent [limit] as 500, whatever the other parameter is as
    long as it is acceptable; with both absent the call succeeds with
    [Pagination{Offset: 0, Limit: 500}], the value of [Default()]. *)
Theorem GetFromURLQuery_defaults {K : Constants} (c : gin.Context) :
  DefaultOffset = 0 -> DefaultLimit500 = 500 ->
  (gin.GetQueryArray c "offset" = None ->
   offending c "limit" = false ->
   exists limit,
     GetFromURLQuery c = ({| Offset := 0; Limit := limit |}, None))
  /\ (gin.GetQueryArray c "limit" = None ->
      offending c "offset" = false ->
      exists offset,
        GetFromURLQuery c = ({| Offset := offset; Limit := 500 |}, None))
  /\ (gin.GetQueryArray c "offset" = None ->
      gin.GetQueryArray c "limit" = None ->
      GetFromURLQuery c = ({| Offset := 0; Limit := 500 |}, None)
      /\ GetFromURLQuery c = (Default, None)).
Proof.
  intros HO HL.
  assert (Hoffset : 0 <= DefaultOffset <= MaxInt64)
    by (rewrite HO; unfold MaxInt64; lia).
  assert (Hlimit : 0 <= DefaultLimit500 <= MaxInt64)
    by (rewrite HL; unfold MaxInt64; lia).
  destruct (GetFromURLQuery_absent c Hoffset Hlimit) as (Ho & Hl & Hboth).
  unfold Default. rewrite HO, HL in *. repeat split; auto.
  all: intros; now apply Hboth.
Qed.

(** A request without query string, with the constants of the spec. *)
Lemma GetFromURLQuery_defaults_witness :
  GetFromURLQuery (K := spec_constants) {| gin.queryCache := [] |}
  = ({| Offset := 0; Limit := 500 |}, None)
  /\ GetFromURLQuery (K := spec_constants) {| gin.queryCache := [] |}
     = (Default (K := spec_constants), None).
Proof.
  apply (GetFromURLQuery_defaults
           (K := spec_constants) {| gin.queryCache := [] |});
    reflexivity.
Defined.

(** The request [/?offset=-1&limit=100]. *)
Lemma GetFromURLQuery_fails_iff_offending_witness :
  failed (GetFromURLQuery (K := spec_constants)
            {| gin.queryCache := [("offset", ("-1", [])%list);
                                  ("limit", ("100", [])%list)] |}) = true.
Proof.
  assert (Hrange : 0 <= 0 <= MaxInt64 /\ 0 <= 500 <= MaxInt64)
    by (unfold MaxInt64; lia).
  destruct (GetFromURLQuery_fails_iff_offending
              (K := spec_constants)
              {| gin.queryCache := [("offset", ("-1", [])%list);
                                    ("limit", ("100", [])%list)] |}
              (proj1 Hrange) (proj2 Hrange))
    as (_ & _ & Hoffset & _).
  exact (Hoffset []%list eq_refl).
Defined.

(** The cases of [TestGetFromURLQuery]. *)
Example GetFromURLQuery_tests :
  let request offset limit :=
    GetFromURLQuery (K := spec_constants)
      {| gin.queryCache := [("offset", (offset, [])%list);
                            ("limit", (limit, [])%list)] |} in
  failed (request "pouet" "100") = true
  /\ fst (request "pouet" "100") = Pagination_zero
  /\ failed (request "100" "pouet") = true
  /\ failed (request "-2" "100") = true
  /\ failed (request "100" "-2") = true
  /\ request "0" "100" = ({| Offset := 0; Limit := 100 |}, None).
Proof. repeat split; reflexivity. Qed.

(** * Integer narrowing *)

Lemma int32_of_int64_range (x : Z) :
  MinInt32 <= int32_of_int64 x <= MaxInt32.
Proof.
  unfold int32_of_int64, MinInt32, MaxInt32.
  pose proof (Z.mod_pos_bound (x + 2147483648) 4294967296 eq_refl). lia.
Qed.

Lemma int32_of_int64_congruent (x : Z) :
  (int32_of_int64 x - x) mod 4294967296 = 0.
Proof.
  unfold int32_of_int64.
  rewrite (Z.mod_eq (x + 2147483648) 4294967296) by discriminate.
  replace (x + 2147483648
           - 4294967296 * ((x + 2147483648) / 4294967296) - 2147483648 - x)
    with (- ((x + 2147483648) / 4294967296) * 4294967296) by ring.
  apply Z.mod_mul. discriminate.
Qed.

(** C10: [MapToInt32] answers nil without error for an invalid wrapper,
    an error for a valid value above the largest [int32], and for a
    valid value below the smallest [int32] no error but a pointer to
    another number: the value reduced modulo 2^32 into the 32-bit
    range. *)
Theorem MapToInt32_asymmetric_range_check (ni : NullInt.t) :
  (sql.NullInt64.Valid ni = false -> NullInt.MapToInt32 ni = (None, None))
  /\ (sql.NullInt64.Valid ni = true -> MaxInt32 < sql.NullInt64.Int64 ni ->
      exists err, NullInt.MapToInt32 ni = (None, Some err))
  /\ (sql.NullInt64.Valid ni = true -> sql.NullInt64.Int64 ni < MinInt32 ->
      exists value,
        NullInt.MapToInt32 ni = (Some value, None)
        /\ MinInt32 <= value <= MaxInt32
        /\ (value - sql.NullInt64.Int64 ni) mod 2 ^ 32 = 0
        /\ value <> sql.NullInt64.Int64 ni).
Proof.
  destruct ni as [i valid]. unfold NullInt.MapToInt32. cbn.
  repeat split.
  - intros ->. reflexivity.
  - intros -> Hhigh. apply Z.ltb_lt in Hhigh. rewrite Hhigh. cbn. eauto.
  - intros -> Hlow. unfold MinInt32 in Hlow.
    destruct (MaxInt32 <? i) eqn:Hhigh.
    + apply Z.ltb_lt in Hhigh. unfold MaxInt32 in Hhigh. lia.
    + cbn. exists (int32_of_int64 i).
      pose proof (int32_of_int64_range i) as Hr.
      repeat split; try apply Hr.
      * apply int32_of_int64_congruent.
      * unfold MinInt32 in Hr. lia.
Qed.

(** The value -2147483649, one below the smallest [int32], comes out as
    2147483647. *)
Lemma MapToInt32_asymmetric_range_check_witness :
  exists value,
    NullInt.MapToInt32 (sql.NullInt64.mk (-2147483649) true)
    = (Some value, None)
    /\ MinInt32 <= value <= MaxInt32
    /\ (value - (-2147483649)) mod 2 ^ 32 = 0
    /\ value <> -2147483649.
Proof.
  apply (proj2 (proj2 (MapToInt32_asymmetric_range_check
                         (sql.NullInt64.mk (-2147483649) true)))).
  - reflexivity.
  - reflexivity.
Defined.

Example MapToInt32_below_range :
  NullInt.MapToInt32 (sql.NullInt64.mk (-2147483649) true)
  = (Some 2147483647, None).
Proof. reflexivity. Qed.

(** * Comparisons of [NullTime] *)

Lemma time_eqb_eq (a b : time.Time) : time.eqb a b = true <-> a = b.
Proof.
  destruct a as [na la], b as [nb lb]. unfold time.eqb. cbn.
  rewrite andb_true_iff, !Z.eqb_eq. split.
  - intros [-> ->]. reflexivity.
  - intros E. injection E as -> ->. auto.
Qed.

Lemma BeforeOrEqual_favours_non_zero_side :
  favours_non_zero_side NullTime.BeforeOrEqual.
Proof.
  intros [a va] [b vb]. unfold NullTime.BeforeOrEqual. cbn.
  destruct (time.IsZero a), (time.IsZero b); cbn; congruence.
Qed.

(** C8, as the code has it: when both times are zero or both are not,
    [AfterOrEqual] holds exactly when the receiver's [Time] is the
    argument's or after it, and [BeforeOrEqual] exactly when it is the
    argument's or before it; when only the argument is zero,
    [AfterOrEqual] is false and [BeforeOrEqual] true; when only the
    receiver is zero, [BeforeOrEqual] is false.  So [BeforeOrEqual]
    favours the non-zero side. *)
Theorem NullTime_comparisons (nt t : NullTime.t) :
  let a := sql.NullTime.Time nt in
  let b := sql.NullTime.Time t in
  (time.IsZero a = time.IsZero b ->
   (NullTime.AfterOrEqual nt t = true <->
    a = b \/ time.nanos b < time.nanos a)
   /\ (NullTime.BeforeOrEqual nt t = true <->
       a = b \/ time.nanos a < time.nanos b))
  /\ (time.IsZero a = false -> time.IsZero b = true ->
      NullTime.AfterOrEqual nt t = false
      /\ NullTime.BeforeOrEqual nt t = true)
  /\ (time.IsZero a = true -> time.IsZero b = false ->
      NullTime.BeforeOrEqual nt t = false)
  /\ favours_non_zero_side NullTime.BeforeOrEqual.
Proof.
  destruct nt as [a va], t as [b vb]. cbn.
  unfold NullTime.AfterOrEqual, NullTime.BeforeOrEqual. cbn.
  split; [|split; [|split]].
  - intros E. rewrite E.
    assert (Hg : forall z, negb z && z = false) by (now intros []).
    assert (Hg' : forall z, z && negb z = false) by (now intros []).
    rewrite Hg, Hg'.
    rewrite !orb_true_iff, !time_eqb_eq.
    unfold time.After, time.Before. rewrite !Z.ltb_lt. tauto.
  - intros -> ->. auto.
  - intros -> ->. reflexivity.
  - exact BeforeOrEqual_favours_non_zero_side.
Qed.

(** A day in 2000 against the zero time. *)
Lemma NullTime_comparisons_witness :
  NullTime.AfterOrEqual (sql.NullTime.mk y2000 true)
                        (sql.NullTime.mk time.zero false) = false
  /\ NullTime.BeforeOrEqual (sql.NullTime.mk y2000 true)
                            (sql.NullTime.mk time.zero false) = true.
Proof.
  apply (proj1 (proj2 (NullTime_comparisons
                         (sql.NullTime.mk y2000 true)
                         (sql.NullTime.mk time.zero false)))).
  - reflexivity.
  - reflexivity.
Defined.

(** C8 as stated fails for [AfterOrEqual]: with exactly one zero time
    the comparison is false in both directions, so that it does not
    hold for the non-zero receiver. *)
Lemma AfterOrEqual_favours_no_side :
  NullTime.AfterOrEqual (sql.NullTime.mk y2000 true)
                        (sql.NullTime.mk time.zero true) = false
  /\ NullTime.AfterOrEqual (sql.NullTime.mk time.zero true)
                           (sql.NullTime.mk y2000 true) = false
  /\ ~ favours_non_zero_side NullTime.AfterOrEqual.
Proof.
  split; [reflexivity|]. split; [reflexivity|].
  intros H.
  specialize (H (sql.NullTime.mk y2000 true) (sql.NullTime.mk time.zero true)).
  cbn in H. discriminate H. discriminate.
Qed.

(** The operator [==] tells apart two [Time] values of the same instant
    in different locations: neither comparison holds between them. *)
Example NullTime_same_instant_other_location :
  NullTime.AfterOrEqual
    (sql.NullTime.mk y2000 true)
    (sql.NullTime.mk {| time.nanos := time.nanos y2000; time.loc := 1 |} true)
  = false
  /\ NullTime.BeforeOrEqual
       (sql.NullTime.mk y2000 true)
       (sql.NullTime.mk {| time.nanos := time.nanos y2000; time.loc := 1 |}
                        true)
     = false.
Proof. split; reflexivity. Qed.

(** * Decoding a pageable *)

Section PageableToSlice_facts.

Context {T : Type} {G : GoType T}.
Context {A : json.CanMarshal GoAny} {C : json.CanUnmarshal T}.

Lemma PageableToSlice_loop_decodes (values : list GoAny) (typed : list T) :
  Forall2 decodes_to values typed ->
  forall data : slice T,
    PageableToSlice_loop values data
    = (match typed with
       | [] => data
       | _ => make_slice (slice_elems data ++ typed)
       end, None).
Proof.
  induction 1 as [|value x values typed (jsonBytes & Hm & Hu) Hrest IH];
    intros data.
  - reflexivity.
  - cbn [PageableToSlice_loop]. rewrite Hm, Hu, IH.
    destruct typed as [|y typed].
    + reflexivity.
    + unfold append. cbn [slice_elems]. now rewrite <- app_assoc.
Qed.

(** A payload element that cannot be encoded, or whose bytes do not
    decode into [T], makes the whole decoding fail. *)
Lemma PageableToSlice_loop_fails (value : GoAny) (rest : list GoAny)
  (data : slice T) :
  (forall x, ~ decodes_to value x) ->
  PageableToSlice_loop (value :: rest) data
  = (empty_slice, Some encode_error).
Proof.
  intros Hno. cbn [PageableToSlice_loop].
  destruct (json.Marshal value) as [jsonBytes [e|]] eqn:Hm; [reflexivity|].
  destruct (json.Unmarshal jsonBytes zero_value) as [x [e|]] eqn:Hu;
    [reflexivity|].
  exfalso. apply (Hno x). exists jsonBytes. auto.
Qed.

Lemma PageableToSlice_refuses_other_payloads (pageable : Pageable) :
  (forall sliceInterface, Data pageable <> VSliceAny sliceInterface) ->
  PageableToSlice (T := T) pageable = (empty_slice, Some cast_error).
Proof.
  intros Hnot. unfold PageableToSlice.
  destruct (Data pageable); try reflexivity. now destruct (Hnot s).
Qed.

(** C4: when the payload of the pageable is not a [[]interface{}],
    [PageableToSlice] returns the empty slice [[]T{}] and an error. *)
Theorem PageableToSlice_not_a_slice_of_interface (pageable : Pageable) :
  (forall sliceInterface, Data pageable <> VSliceAny sliceInterface) ->
  PageableToSlice (T := T) pageable = (empty_slice, Some cast_error)
  /\ slice_elems (fst (PageableToSlice (T := T) pageable)) = []
  /\ failed (PageableToSlice (T := T) pageable) = true.
Proof.
  intros Hnot.
  rewrite (PageableToSlice_refuses_other_payloads pageable Hnot). auto.
Qed.

(** C1, as the code has it: [BuildPageable] stores the pagination, the
    total and the typed slice itself; [PageableToSlice] refuses the
    envelope so built unless [[]T] is [[]interface{}]; it returns the
    typed elements, in order, when the payload is the slice of the
    generic values that decode to them, as after a JSON decode of the
    envelope (a nil slice when there is none). *)
Theorem BuildPageable_then_PageableToSlice
  (page : Pagination) (total : Z) (data : slice T) :
  (Pageable_Limit (BuildPageable page total data) = Limit page
   /\ Pageable_Offset (BuildPageable page total data) = Offset page
   /\ Total (BuildPageable page total data) = total
   /\ Data (BuildPageable page total data) = box_slice data)
  /\ ((forall s, box_slice data <> VSliceAny s) ->
      PageableToSlice (T := T) (BuildPageable page total data)
      = (empty_slice, Some cast_error))
  /\ (forall values : list GoAny,
      Forall2 decodes_to values (slice_elems data) ->
      PageableToSlice (T := T)
        {| Pageable_Limit := Limit page;
           Pageable_Offset := Offset page;
           Total := total;
           Data := VSliceAny (make_slice values) |}
      = (match slice_elems data with
         | [] => nil_slice
         | typed => make_slice typed
         end, None)).
Proof.
  split; [repeat split|]. split.
  - intros Hnot.
    apply (PageableToSlice_refuses_other_payloads
             (BuildPageable page total data)). exact Hnot.
  - intros values Hall. unfold PageableToSlice. cbn [Data slice_elems].
    rewrite (PageableToSlice_loop_decodes _ _ Hall).
    now destruct (slice_elems data).
Qed.

End PageableToSlice_facts.

(** The first case of [TestPageableToLabelSlice]: the payload is
    [int64(1)]. *)
Lemma PageableToSlice_not_a_slice_of_interface_witness :
  PageableToSlice (T := Label)
    (A := fragment.any_CanMarshal) (C := fragment.Label_CanUnmarshal)
    {| Pageable_Limit := 0; Pageable_Offset := 0; Total := 0;
       Data := VInt64 1 |}
  = (empty_slice, Some cast_error).
Proof.
  apply (PageableToSlice_not_a_slice_of_interface
           (T := Label)
           (A := fragment.any_CanMarshal) (C := fragment.Label_CanUnmarshal)
           {| Pageable_Limit := 0; Pageable_Offset := 0; Total := 0;
              Data := VInt64 1 |}).
  intros sliceInterface. discriminate.
Defined.

(** The other two cases of that test: a payload of mixed elements, and
    the mock. *)
Example PageableToSlice_mixed_elements :
  PageableToSlice (T := Label)
    (A := fragment.any_CanMarshal) (C := fragment.Label_CanUnmarshal)
    {| Pageable_Limit := 0; Pageable_Offset := 0; Total := 0;
       Data := VSliceAny (make_slice [VString "toto";
                                      VFloat64 (math.float64_of_int 1)]) |}
  = (empty_slice, Some encode_error).
Proof. reflexivity. Qed.

Example PageableToSlice_MockPageableLabel :
  PageableToSlice (T := Label)
    (A := fragment.any_CanMarshal) (C := fragment.Label_CanUnmarshal)
    (MockPageableLabel ["my label"; "my second label"])
  = (make_slice
       [{| Label_Label := sql.NullString.mk "my label" true |};
        {| Label_Label := sql.NullString.mk "my second label" true |}],
     None).
Proof. reflexivity. Qed.

(** The data of [TestBuildPageable], built and decoded at [Label]: the
    generic image of the label decodes to it, the envelope itself is
    refused. *)
Lemma BuildPageable_then_PageableToSlice_witness :
  PageableToSlice (T := Label)
    (A := fragment.any_CanMarshal) (C := fragment.Label_CanUnmarshal)
    (BuildPageable {| Offset := 47; Limit := 12 |} 1
       (make_slice [{| Label_Label := sql.NullString.mk "hello" true |}]))
  = (empty_slice, Some cast_error)
  /\ PageableToSlice (T := Label)
       (A := fragment.any_CanMarshal) (C := fragment.Label_CanUnmarshal)
       {| Pageable_Limit := 12; Pageable_Offset := 47; Total := 1;
          Data := VSliceAny
                    (make_slice [VMapAny [("label", VString "hello")]]) |}
     = (make_slice [{| Label_Label := sql.NullString.mk "hello" true |}],
        None).
Proof.
  pose proof (BuildPageable_then_PageableToSlice
                (T := Label)
                (A := fragment.any_CanMarshal)
                (C := fragment.Label_CanUnmarshal)
                {| Offset := 47; Limit := 12 |} 1
                (make_slice
                   [{| Label_Label := sql.NullString.mk "hello" true |}]))
    as (_ & Hbuilt & Hgeneric).
  split.
  - apply Hbuilt. intros s. discriminate.
  - apply (Hgeneric [VMapAny [("label", VString "hello")]]).
    constructor; [|constructor].
    exists (fst (fragment.Marshal_any (VMapAny [("label", VString "hello")]))).
    split; reflexivity.
Defined.

(** C1 as stated fails: the envelope that [BuildPageable] makes of a
    [[]Label] is refused by [PageableToSlice] at [Label], which answers
    the empty slice and an error instead of the labels. *)
Lemma BuildPageable_then_PageableToSlice_is_refused :
  PageableToSlice (T := Label)
    (A := fragment.any_CanMarshal) (C := fragment.Label_CanUnmarshal)
    (BuildPageable {| Offset := 47; Limit := 12 |} 1
       (make_slice [{| Label_Label := sql.NullString.mk "hello" true |}]))
  = (empty_slice, Some cast_error)
  /\ PageableToSlice (T := Label)
       (A := fragment.any_CanMarshal) (C := fragment.Label_CanUnmarshal)
       (BuildPageable {| Offset := 47; Limit := 12 |} 1
          (make_slice [{| Label_Label := sql.NullString.mk "hello" true |}]))
     <> (make_slice [{| Label_Label := sql.NullString.mk "hello" true |}],
         None).
Proof. split; [reflexivity|discriminate]. Qed.

(** * JSON encoding and decoding of the nullable wrappers *)

Lemma eqb_null_false (b : bytes) : b <> "null" -> (b =? "null")%string = false.
Proof. apply String.eqb_neq. Qed.

Lemma isNil_None (err : option error) : isNil err = true <-> err = None.
Proof. destruct err; cbn; split; congruence. Qed.

Section Wrapper_facts.

Context {P : math.Platform} {L : TimeLayouts}.
Context {FM : json.CanMarshal float64} {FU : json.CanUnmarshal float64}.
Context {SM : json.CanMarshal string} {SU : json.CanUnmarshal string}.

(** ** Encoding *)

Lemma NullEmptyString_MarshalJSON_invalid (ns : NullEmptyString.t) :
  sql.NullString.Valid ns = false ->
  NullEmptyString.MarshalJSON ns = json.Marshal EmptyString.
Proof. intros H. unfold NullEmptyString.MarshalJSON. now rewrite H. Qed.

(** C5, as the code has it: an invalid wrapper is encoded as [null] by
    every variant but [NullEmptyString], which encodes it as the empty
    string is encoded; [NullInt], [NullFloat], [NullString] and
    [NullTime] also encode as [null] a valid wrapper that holds 0, 0.0,
    the empty string or the zero time. *)
Theorem MarshalJSON_null :
  (forall nb : NullBool.t,
      sql.NullBool.Valid nb = false ->
      NullBool.MarshalJSON nb = ("null", None))
  /\ (forall ni : NullInt.t,
      sql.NullInt64.Valid ni = false \/ sql.NullInt64.Int64 ni = 0 ->
      NullInt.MarshalJSON ni = ("null", None))
  /\ (forall nf : NullFloat.t,
      sql.NullFloat64.Valid nf = false
      \/ math.is_zero (sql.NullFloat64.Float64 nf) = true ->
      NullFloat.MarshalJSON nf = ("null", None))
  /\ (forall ns : NullString.t,
      sql.NullString.Valid ns = false
      \/ sql.NullString.String_ ns = EmptyString ->
      NullString.MarshalJSON ns = ("null", None))
  /\ (forall nt : NullTime.t,
      sql.NullTime.Valid nt = false
      \/ time.IsZero (sql.NullTime.Time nt) = true ->
      NullTime.MarshalJSON nt = ("null", None))
  /\ (forall v : JSONNullInt64.t,
      sql.NullInt64.Valid v = false ->
      JSONNullInt64.MarshalJSON v = ("null", None))
  /\ (forall v : JSONNullFloat64.t,
      sql.NullFloat64.Valid v = false ->
      JSONNullFloat64.MarshalJSON v = ("null", None))
  /\ (forall ns : NullEmptyString.t,
      sql.NullString.Valid ns = false ->
      NullEmptyString.MarshalJSON ns = json.Marshal EmptyString).
Proof.
  repeat split.
  - intros [v valid] H. cbn in H. subst. reflexivity.
  - intros [i valid] [H|H]; cbn in H; subst; unfold NullInt.MarshalJSON; cbn.
    + reflexivity.
    + now rewrite orb_true_r.
  - intros [f valid] [H|H]; cbn in H; unfold NullFloat.MarshalJSON; cbn.
    + now subst.
    + now rewrite H, orb_true_r.
  - intros [str valid] [H|H]; cbn in H; subst; unfold NullString.MarshalJSON;
      cbn.
    + reflexivity.
    + now rewrite orb_true_r.
  - intros [tm valid] [H|H]; cbn in H; unfold NullTime.MarshalJSON; cbn.
    + now subst.
    + now rewrite H, orb_true_r.
  - intros [i valid] H. cbn in H. subst. reflexivity.
  - intros [f valid] H. cbn in H. subst. reflexivity.
  - exact NullEmptyString_MarshalJSON_invalid.
Qed.

(** ** Decoding *)

(** C6, as the code has it.  On the bytes [null], [NullBool],
    [NullString] and [NullTime] become invalid without error and
    [NullInt] and [NullFloat] become invalid; so do the two pointer
    based variants on a JSON [null], white space allowed.  On other
    input the validity of [NullBool], [NullInt] and [NullFloat] is that
    of the absence of error, as is that of [NullEmptyString] on every
    input, [null] included, and that of [NullString] on every input
    but the empty one, which makes it invalid without error.
    [NullTime] and the pointer based variants become valid when there
    is no error, and when they were invalid their validity is that of
    the absence of error. *)
Theorem UnmarshalJSON_validity (b : bytes) :
  (forall nb : NullBool.t,
      (b = "null" ->
       sql.NullBool.Valid (fst (NullBool.UnmarshalJSON nb b)) = false
       /\ snd (NullBool.UnmarshalJSON nb b) = None)
      /\ (b <> "null" ->
          sql.NullBool.Valid (fst (NullBool.UnmarshalJSON nb b))
          = isNil (snd (NullBool.UnmarshalJSON nb b))))
  /\ (forall ni : NullInt.t,
      (b = "null" ->
       sql.NullInt64.Valid (fst (NullInt.UnmarshalJSON ni b)) = false)
      /\ (b <> "null" ->
          sql.NullInt64.Valid (fst (NullInt.UnmarshalJSON ni b))
          = isNil (snd (NullInt.UnmarshalJSON ni b))))
  /\ (forall nf : NullFloat.t,
      (b = "null" ->
       sql.NullFloat64.Valid (fst (NullFloat.UnmarshalJSON nf b)) = false)
      /\ (b <> "null" ->
          sql.NullFloat64.Valid (fst (NullFloat.UnmarshalJSON nf b))
          = isNil (snd (NullFloat.UnmarshalJSON nf b))))
  /\ (forall ns : NullString.t,
      (b = "null" \/ b = EmptyString ->
       sql.NullString.Valid (fst (NullString.UnmarshalJSON ns b)) = false
       /\ snd (NullString.UnmarshalJSON ns b) = None)
      /\ (b <> "null" -> b <> EmptyString ->
          sql.NullString.Valid (fst (NullString.UnmarshalJSON ns b))
          = isNil (snd (NullString.UnmarshalJSON ns b))))
  /\ (forall ns : NullEmptyString.t,
      sql.NullString.Valid (fst (NullEmptyString.UnmarshalJSON ns b))
      = isNil (snd (NullEmptyString.UnmarshalJSON ns b)))
  /\ (forall nt : NullTime.t,
      (b = "null" ->
       sql.NullTime.Valid (fst (NullTime.UnmarshalJSON nt b)) = false
       /\ snd (NullTime.UnmarshalJSON nt b) = None)
      /\ (b <> "null" -> snd (NullTime.UnmarshalJSON nt b) = None ->
          sql.NullTime.Valid (fst (NullTime.UnmarshalJSON nt b)) = true)
      /\ (b <> "null" -> sql.NullTime.Valid nt = false ->
          sql.NullTime.Valid (fst (NullTime.UnmarshalJSON nt b))
          = isNil (snd (NullTime.UnmarshalJSON nt b))))
  /\ (forall v : JSONNullInt64.t,
      (json.literal b = "null" ->
       sql.NullInt64.Valid (fst (JSONNullInt64.UnmarshalJSON v b)) = false
       /\ snd (JSONNullInt64.UnmarshalJSON v b) = None)
      /\ (json.literal b <> "null" ->
          snd (JSONNullInt64.UnmarshalJSON v b) = None ->
          sql.NullInt64.Valid (fst (JSONNullInt64.UnmarshalJSON v b)) = true)
      /\ (json.literal b <> "null" -> sql.NullInt64.Valid v = false ->
          sql.NullInt64.Valid (fst (JSONNullInt64.UnmarshalJSON v b))
          = isNil (snd (JSONNullInt64.UnmarshalJSON v b))))
  /\ (forall v : JSONNullFloat64.t,
      (json.literal b = "null" ->
       sql.NullFloat64.Valid (fst (JSONNullFloat64.UnmarshalJSON v b)) = false
       /\ snd (JSONNullFloat64.UnmarshalJSON v b) = None)
      /\ (json.literal b <> "null" ->
          snd (JSONNullFloat64.UnmarshalJSON v b) = None ->
          sql.NullFloat64.Valid (fst (JSONNullFloat64.UnmarshalJSON v b))
          = true)
      /\ (json.literal b <> "null" -> sql.NullFloat64.Valid v = false ->
          sql.NullFloat64.Valid (fst (JSONNullFloat64.UnmarshalJSON v b))
          = isNil (snd (JSONNullFloat64.UnmarshalJSON v b)))).
Proof.
  repeat match goal with |- _ /\ _ => split end.
  - intros nb. unfold NullBool.UnmarshalJSON. split.
    + intros ->. cbn. auto.
    + intros Hb. rewrite (eqb_null_false b Hb).
      now library_call.
  - intros ni. unfold NullInt.UnmarshalJSON. split.
    + intros ->.
      now library_call.
    + intros Hb. rewrite (eqb_null_false b Hb).
      now library_call.
  - intros nf. unfold NullFloat.UnmarshalJSON. split.
    + intros ->.
      now library_call.
    + intros Hb. rewrite (eqb_null_false b Hb).
      now library_call.
  - intros ns. unfold NullString.UnmarshalJSON. split.
    + intros [->| ->]; cbn; auto.
    + intros Hb He. rewrite (eqb_null_false b Hb).
      apply String.eqb_neq in He. rewrite He. cbn [orb].
      now library_call.
  - intros ns. unfold NullEmptyString.UnmarshalJSON.
    now library_call.
  - intros nt. unfold NullTime.UnmarshalJSON.
    repeat match goal with |- _ /\ _ => split end.
    + intros ->. split; reflexivity.
    + intros Hb. rewrite (eqb_null_false b Hb).
      library_call; cbn; [|reflexivity].
      library_call; cbn; [discriminate|reflexivity].
    + intros Hb Hv. rewrite (eqb_null_false b Hb).
      library_call; cbn; [|reflexivity].
      library_call; cbn; [exact Hv|reflexivity].
  - intros v. unfold JSONNullInt64.UnmarshalJSON, json.Unmarshal_ptr.
    repeat match goal with |- _ /\ _ => split end.
    + intros ->. split; reflexivity.
    + intros Hb. rewrite (eqb_null_false _ Hb).
      library_call; cbn; [discriminate|reflexivity].
    + intros Hb Hv. rewrite (eqb_null_false _ Hb).
      library_call; cbn; [exact Hv|reflexivity].
  - intros v. unfold JSONNullFloat64.UnmarshalJSON, json.Unmarshal_ptr.
    repeat match goal with |- _ /\ _ => split end.
    + intros ->. split; reflexivity.
    + intros Hb. rewrite (eqb_null_false _ Hb).
      library_call; cbn; [discriminate|reflexivity].
    + intros Hb Hv. rewrite (eqb_null_false _ Hb).
      library_call; cbn; [exact Hv|reflexivity].
Qed.

(** ** Encoding, then decoding *)

Lemma NullBool_round_trip (nb r : NullBool.t) :
  exists b nb',
    NullBool.MarshalJSON nb = (b, None)
    /\ NullBool.UnmarshalJSON r b = (nb', None)
    /\ sql.NullBool.Valid nb' = sql.NullBool.Valid nb
    /\ (sql.NullBool.Valid nb = true ->
        sql.NullBool.Bool nb' = sql.NullBool.Bool nb).
Proof.
  destruct nb as [[] []], r as [old valid];
    do 2 eexists; (split; [reflexivity|]); (split; [reflexivity|]);
    cbn; (split; [reflexivity|intros; first [reflexivity|discriminate]]).
Qed.

Lemma JSONNullInt64_round_trip (v r : JSONNullInt64.t) :
  MinInt64 <= sql.NullInt64.Int64 v <= MaxInt64 ->
  exists b v',
    JSONNullInt64.MarshalJSON v = (b, None)
    /\ JSONNullInt64.UnmarshalJSON r b = (v', None)
    /\ sql.NullInt64.Valid v' = sql.NullInt64.Valid v
    /\ (sql.NullInt64.Valid v = true ->
        sql.NullInt64.Int64 v' = sql.NullInt64.Int64 v).
Proof.
  destruct v as [i []], r as [old valid]; cbn [sql.NullInt64.Int64]; intros Hi.
  - exists (strconv.Itoa i), (sql.NullInt64.mk i true).
    split; [reflexivity|]. split; [|auto].
    unfold JSONNullInt64.UnmarshalJSON, json.Unmarshal_ptr.
    rewrite Itoa_literal, (eqb_null_false _ (Itoa_not_null i)).
    cbn [json.Unmarshal json.int64_CanUnmarshal].
    now rewrite (Unmarshal_int64_Itoa i 0 Hi).
  - exists "null", (sql.NullInt64.mk old false).
    repeat split. discriminate.
Qed.

Lemma JSONNullFloat64_round_trip (v r : JSONNullFloat64.t) :
  (sql.NullFloat64.Valid v = true ->
   exists b,
     json.Marshal (sql.NullFloat64.Float64 v) = (b, None)
     /\ json.Unmarshal_ptr (S754_zero false) b
        = (Some (sql.NullFloat64.Float64 v), None)) ->
  exists b v',
    JSONNullFloat64.MarshalJSON v = (b, None)
    /\ JSONNullFloat64.UnmarshalJSON r b = (v', None)
    /\ sql.NullFloat64.Valid v' = sql.NullFloat64.Valid v
    /\ (sql.NullFloat64.Valid v = true ->
        sql.NullFloat64.Float64 v' = sql.NullFloat64.Float64 v).
Proof.
  destruct v as [f []], r as [old valid]; cbn; intros H.
  - destruct (H eq_refl) as (b & Hm & Hu).
    exists b, (sql.NullFloat64.mk f true).
    unfold JSONNullFloat64.MarshalJSON, JSONNullFloat64.UnmarshalJSON. cbn.
    rewrite Hm, Hu. auto.
  - exists "null", (sql.NullFloat64.mk old false).
    repeat split. discriminate.
Qed.

Lemma NullInt_round_trip (ni r : NullInt.t) (f : float64) :
  sql.NullInt64.Valid ni = true ->
  sql.NullInt64.Int64 ni <> 0 ->
  json.Unmarshal (strconv.Itoa (sql.NullInt64.Int64 ni)) (S754_zero false)
  = (f, None) ->
  math.int64_of_float64 f = sql.NullInt64.Int64 ni ->
  exists b,
    NullInt.MarshalJSON ni = (b, None)
    /\ NullInt.UnmarshalJSON r b
       = (sql.NullInt64.mk (sql.NullInt64.Int64 ni) true, None).
Proof.
  destruct ni as [i valid], r as [old oldvalid].
  cbn [sql.NullInt64.Int64 sql.NullInt64.Valid]. intros -> Hi Hu Hf.
  exists (strconv.Itoa i). unfold NullInt.MarshalJSON, NullInt.UnmarshalJSON.
  cbn [sql.NullInt64.Int64 sql.NullInt64.Valid negb orb].
  apply Z.eqb_neq in Hi. rewrite Hi. split; [reflexivity|].
  rewrite Hu, (eqb_null_false _ (Itoa_not_null i)).
  cbn [sql.NullInt64.Int64 isNil]. now rewrite Hf.
Qed.

Lemma NullInt_collapse (ni r : NullInt.t) :
  sql.NullInt64.Valid ni = false \/ sql.NullInt64.Int64 ni = 0 ->
  NullInt.MarshalJSON ni = ("null", None)
  /\ sql.NullInt64.Valid (fst (NullInt.UnmarshalJSON r "null")) = false.
Proof.
  intros H. split.
  - destruct ni as [i valid]. unfold NullInt.MarshalJSON. cbn in *.
    destruct H as [->| ->]; [reflexivity|]. now rewrite orb_true_r.
  - unfold NullInt.UnmarshalJSON. now library_call.
Qed.

Lemma NullFloat_round_trip (nf r : NullFloat.t) :
  sql.NullFloat64.Valid nf = true ->
  math.is_zero (sql.NullFloat64.Float64 nf) = false ->
  round_trips (sql.NullFloat64.Float64 nf) (sql.NullFloat64.Float64 r) ->
  exists b,
    NullFloat.MarshalJSON nf = (b, None)
    /\ NullFloat.UnmarshalJSON r b
       = (sql.NullFloat64.mk (sql.NullFloat64.Float64 nf) true, None).
Proof.
  destruct nf as [f valid], r as [old oldvalid]. cbn.
  intros -> Hz (b & Hm & Hnull & _ & Hu).
  exists b. unfold NullFloat.MarshalJSON, NullFloat.UnmarshalJSON. cbn.
  rewrite Hz, Hm, Hu, (eqb_null_false _ Hnull). auto.
Qed.

Lemma NullFloat_collapse (nf r : NullFloat.t) :
  sql.NullFloat64.Valid nf = false
  \/ math.is_zero (sql.NullFloat64.Float64 nf) = true ->
  NullFloat.MarshalJSON nf = ("null", None)
  /\ sql.NullFloat64.Valid (fst (NullFloat.UnmarshalJSON r "null")) = false.
Proof.
  intros H. split.
  - destruct nf as [f valid]. unfold NullFloat.MarshalJSON. cbn in *.
    destruct H as [->|H]; [reflexivity|]. now rewrite H, orb_true_r.
  - unfold NullFloat.UnmarshalJSON. now library_call.
Qed.

Lemma NullString_round_trip (ns r : NullString.t) :
  sql.NullString.Valid ns = true ->
  sql.NullString.String_ ns <> EmptyString ->
  round_trips (sql.NullString.String_ ns) (sql.NullString.String_ r) ->
  exists b,
    NullString.MarshalJSON ns = (b, None)
    /\ NullString.UnmarshalJSON r b
       = (sql.NullString.mk (sql.NullString.String_ ns) true, None).
Proof.
  destruct ns as [str valid], r as [old oldvalid]. cbn.
  intros -> Hs (b & Hm & Hnull & Hempty & Hu).
  exists b. unfold NullString.MarshalJSON, NullString.UnmarshalJSON. cbn.
  apply String.eqb_neq in Hs, Hempty. rewrite Hs, Hm. split; [reflexivity|].
  now rewrite (eqb_null_false _ Hnull), Hempty, Hu.
Qed.

Lemma NullString_collapse (ns r : NullString.t) :
  sql.NullString.Valid ns = false
  \/ sql.NullString.String_ ns = EmptyString ->
  NullString.MarshalJSON ns = ("null", None)
  /\ NullString.UnmarshalJSON r "null"
     = (sql.NullString.mk (sql.NullString.String_ r) false, None).
Proof.
  intros H. split; [|reflexivity].
  destruct ns as [str valid]. unfold NullString.MarshalJSON. cbn in *.
  destruct H as [->| ->]; [reflexivity|]. now rewrite orb_true_r.
Qed.

Lemma NullEmptyString_round_trip (ns r : NullEmptyString.t) :
  round_trips (if sql.NullString.Valid ns then sql.NullString.String_ ns
               else EmptyString)
              (sql.NullString.String_ r) ->
  exists b,
    NullEmptyString.MarshalJSON ns = (b, None)
    /\ NullEmptyString.UnmarshalJSON r b
       = (sql.NullString.mk
            (if sql.NullString.Valid ns then sql.NullString.String_ ns
             else EmptyString) true, None).
Proof.
  destruct ns as [str valid], r as [old oldvalid]. cbn.
  intros (b & Hm & _ & _ & Hu).
  exists b. unfold NullEmptyString.MarshalJSON, NullEmptyString.UnmarshalJSON.
  cbn. destruct valid; cbn; rewrite Hm, Hu; auto.
Qed.

Lemma NullTime_round_trip (nt r : NullTime.t) (b : bytes) (d : time.Time) :
  sql.NullTime.Valid nt = true ->
  time.IsZero (sql.NullTime.Time nt) = false ->
  json.Marshal (time_Format (sql.NullTime.Time nt) "2006-01-02") = (b, None) ->
  b <> "null" ->
  time_Parse (dquote ++ "2006-01-02" ++ dquote) b = (d, None) ->
  NullTime.MarshalJSON nt = (b, None)
  /\ NullTime.UnmarshalJSON r b = (sql.NullTime.mk d true, None).
Proof.
  destruct nt as [tm valid], r as [old oldvalid]. cbn.
  intros -> Hz Hm Hnull Hp.
  unfold NullTime.MarshalJSON, NullTime.UnmarshalJSON. cbn.
  rewrite Hz, Hm, (eqb_null_false _ Hnull), Hp. auto.
Qed.

Lemma NullTime_collapse (nt r : NullTime.t) :
  sql.NullTime.Valid nt = false
  \/ time.IsZero (sql.NullTime.Time nt) = true ->
  NullTime.MarshalJSON nt = ("null", None)
  /\ NullTime.UnmarshalJSON r "null"
     = (sql.NullTime.mk (sql.NullTime.Time r) false, None).
Proof.
  intros H. split; [|reflexivity].
  destruct nt as [tm valid]. unfold NullTime.MarshalJSON. cbn in *.
  destruct H as [->|H]; [reflexivity|]. now rewrite H, orb_true_r.
Qed.


End Wrapper_facts.

(** * The wrappers on examples *)

(** A valid empty [NullString] and an invalid [NullEmptyString]. *)
Lemma MarshalJSON_null_witness :
  NullString.MarshalJSON (SM := fragment.string_CanMarshal)
    (sql.NullString.mk EmptyString true) = ("null", None)
  /\ NullEmptyString.MarshalJSON (SM := fragment.string_CanMarshal)
       (sql.NullString.mk "hello" false)
     = json.Marshal (CanMarshal := fragment.string_CanMarshal) EmptyString.
Proof.
  destruct (MarshalJSON_null
              (L := fragment.layouts)
              (FM := fragment.float64_CanMarshal)
              (SM := fragment.string_CanMarshal))
    as (_ & _ & _ & HString & _ & _ & _ & HEmptyString).
  split.
  - apply HString. right. reflexivity.
  - apply HEmptyString. reflexivity.
Defined.

(** C5 as stated fails for [NullEmptyString]: an invalid wrapper is
    encoded as the two bytes of an empty JSON string, not as [null]. *)
Lemma NullEmptyString_MarshalJSON_invalid_is_not_null :
  NullEmptyString.MarshalJSON (SM := fragment.string_CanMarshal)
    (sql.NullString.mk "hello" false) = (dquote ++ dquote, None)
  /\ NullEmptyString.MarshalJSON (SM := fragment.string_CanMarshal)
       (sql.NullString.mk "hello" false) <> ("null", None).
Proof. split; [reflexivity|discriminate]. Qed.

(** [null] for a [NullBool], a string for a [NullString], and a text
    that is no date for an invalid [NullTime]. *)
Lemma UnmarshalJSON_validity_witness :
  (sql.NullBool.Valid
     (fst (NullBool.UnmarshalJSON (sql.NullBool.mk true true) "null")) = false
   /\ snd (NullBool.UnmarshalJSON (sql.NullBool.mk true true) "null") = None)
  /\ sql.NullString.Valid
       (fst (NullString.UnmarshalJSON (SU := fragment.string_CanUnmarshal)
               (sql.NullString.mk EmptyString false) "12"))
     = isNil
         (snd (NullString.UnmarshalJSON (SU := fragment.string_CanUnmarshal)
                 (sql.NullString.mk EmptyString false) "12"))
  /\ sql.NullTime.Valid
       (fst (NullTime.UnmarshalJSON (L := fragment.layouts)
               (sql.NullTime.mk time.zero false) "12"))
     = isNil
         (snd (NullTime.UnmarshalJSON (L := fragment.layouts)
                 (sql.NullTime.mk time.zero false) "12")).
Proof.
  split; [|split].
  - apply (UnmarshalJSON_validity
             (P := math.amd64) (L := fragment.layouts)
             (FU := fragment.float64_CanUnmarshal)
             (SU := fragment.string_CanUnmarshal) "null").
    reflexivity.
  - apply (UnmarshalJSON_validity
             (P := math.amd64) (L := fragment.layouts)
             (FU := fragment.float64_CanUnmarshal)
             (SU := fragment.string_CanUnmarshal) "12"); discriminate.
  - apply (UnmarshalJSON_validity
             (P := math.amd64) (L := fragment.layouts)
             (FU := fragment.float64_CanUnmarshal)
             (SU := fragment.string_CanUnmarshal) "12");
      [discriminate|reflexivity].
Defined.

(** C6 as stated fails twice: on the empty input [NullString] reports
    no error and is invalid, and on [null] [NullEmptyString] becomes
    valid. *)
Lemma UnmarshalJSON_validity_exceptions :
  NullString.UnmarshalJSON (SU := fragment.string_CanUnmarshal)
    (sql.NullString.mk "hello" true) EmptyString
  = (sql.NullString.mk "hello" false, None)
  /\ NullEmptyString.UnmarshalJSON (SU := fragment.string_CanUnmarshal)
       (sql.NullString.mk EmptyString false) "null"
     = (sql.NullString.mk EmptyString true, None).
Proof. split; reflexivity. Qed.

(** A [NullTime] that was valid stays so when neither layout parses,
    with the zero time and an error. *)
Example NullTime_UnmarshalJSON_keeps_validity :
  exists err,
    NullTime.UnmarshalJSON (L := fragment.layouts)
      (sql.NullTime.mk y2000 true) "12"
    = (sql.NullTime.mk time.zero true, Some err).
Proof. eexists. reflexivity. Qed.



(** Two more values that do not come back: [NullTime] writes the date
    only, and [NullInt] reads numbers through a [float64]. *)
Example NullTime_round_trip_drops_the_clock :
  NullTime.MarshalJSON
    (L := fragment.layouts) (SM := fragment.string_CanMarshal)
    (sql.NullTime.mk
       {| time.nanos := 63082285323000000000; time.loc := 0 |} true)
  = (dquote ++ "2000-01-01" ++ dquote, None)
  /\ NullTime.UnmarshalJSON (L := fragment.layouts)
       (sql.NullTime.mk time.zero false) (dquote ++ "2000-01-01" ++ dquote)
     = (sql.NullTime.mk y2000 true, None).
Proof. split; reflexivity. Qed.

Example NullInt_round_trip_rounds :
  NullInt.MarshalJSON (sql.NullInt64.mk 9007199254740993 true)
  = ("9007199254740993", None)
  /\ NullInt.UnmarshalJSON
       (P := math.amd64) (F := fragment.float64_CanUnmarshal)
       (sql.NullInt64.mk 0 false) "9007199254740993"
     = (sql.NullInt64.mk 9007199254740992 true, None).
Proof. split; reflexivity. Qed.

(** * Scanning a float *)

Section NullFloat_Scan_facts.

Context {P : math.Platform} {D : SQLConvert}.

(** A scanned NaN is stored as an invalid 0, without error. *)
Lemma NullFloat_Scan_NaN (nf : NullFloat.t) :
  NullFloat.Scan nf (VFloat64 S754_nan)
  = (sql.NullFloat64.mk (S754_zero false) false, None).
Proof. reflexivity. Qed.


End NullFloat_Scan_facts.

(** The float 1.23456789 is stored as 1.2345. *)
Example NullFloat_Scan_truncates :
  NullFloat.Scan (P := math.amd64) (D := fragment.convert)
    (sql.NullFloat64.mk (S754_zero false) false)
    (VFloat64 (math.div (math.float64_of_int 123456789)
                        (math.float64_of_int 100000000)))
  = (sql.NullFloat64.mk
       (math.div (math.float64_of_int 12345) (math.float64_of_int 10000))
       true, None).
Proof. vm_compute. reflexivity. Qed.

(** C9 fails on the code for a float of magnitude 2^63 / 10^4 or more:
    the product by 10^4 does not fit the [int] it is converted to.  The
    float 10^15 is stored as -922337203685477.6 on amd64 and as
    922337203685477.6 on arm64, valid and without error, where the
    truncation to four decimals is 10^15 itself. *)
Theorem NullFloat_Scan_overflows (D : SQLConvert) (nf : NullFloat.t) :
  math.truncate
    (math.mul (math.float64_of_int 1000000000000000) math.Pow10_4)
  = Some 10000000000000000000
  /\ MaxInt64 < 10000000000000000000
  /\ NullFloat.Scan (P := math.amd64) nf
       (VFloat64 (math.float64_of_int 1000000000000000))
     = (sql.NullFloat64.mk (S754_finite true 7378697629483821 (-3)) true,
        None)
  /\ NullFloat.Scan (P := math.arm64) nf
       (VFloat64 (math.float64_of_int 1000000000000000))
     = (sql.NullFloat64.mk (S754_finite false 7378697629483821 (-3)) true,
        None)
  /\ math.div (math.float64_of_int 10000000000000000000) math.Pow10_4
     = math.float64_of_int 1000000000000000
  /\ S754_finite true 7378697629483821 (-3)
     <> math.float64_of_int 1000000000000000
  /\ S754_finite false 7378697629483821 (-3)
     <> math.float64_of_int 1000000000000000.
Proof.
  repeat split; try (vm_compute; congruence).
Qed.

(** * The fragment reads back the strings it writes *)

Lemma unescape_escape_byte (c : ascii) (rest r : string) :
  fragment.unescape rest = Some r ->
  fragment.unescape (fragment.escape_byte c ++ rest) = Some (String c r).
Proof.
  intros H.
  destruct c as [[] [] [] [] [] [] [] []];
    match goal with
    | |- context [fragment.escape_byte ?c] =>
        let v := eval vm_compute in (fragment.escape_byte c) in
        change (fragment.escape_byte c) with v
    end;
    simpl; rewrite ?H; reflexivity.
Qed.

Lemma unescape_escape (s : string) :
  fragment.unescape (fragment.escape s) = Some s.
Proof.
  induction s as [|c s IH]; [reflexivity|].
  cbn [fragment.escape]. now apply unescape_escape_byte.
Qed.

(** A text that ends with a byte that is no white space keeps its
    end. *)
Lemma drop_trailing_space_snoc (x : string) (c : ascii) :
  json.is_space c = false ->
  json.drop_trailing_space (x ++ String c EmptyString)
  = x ++ String c EmptyString.
Proof.
  intros Hc. induction x as [|a x IH]; cbn.
  - now rewrite Hc.
  - rewrite IH. now destruct x.
Qed.

Lemma strip_closing_quote_snoc (x : string) :
  fragment.strip_closing_quote (x ++ dquote) = Some x.
Proof.
  induction x as [|a x IH]; [reflexivity|].
  cbn [String.append fragment.strip_closing_quote]. rewrite IH.
  now destruct x.
Qed.

Lemma strip_closing_brace_snoc (x : string) :
  fragment.strip_closing_brace (x ++ "}") = Some x.
Proof.
  induction x as [|a x IH]; [reflexivity|].
  cbn [String.append fragment.strip_closing_brace]. rewrite IH.
  now destruct x.
Qed.

(** The literal that the fragment writes for [s]. *)
Lemma literal_quoted (x : string) :
  json.literal (dquote ++ x ++ dquote) = dquote ++ x ++ dquote.
Proof.
  unfold json.literal. cbn [dquote String.append json.skip_space].
  change (json.is_space (ascii_of_nat 34)) with false. cbv iota.
  change (String (ascii_of_nat 34) (x ++ dquote))
    with ((String (ascii_of_nat 34) x) ++ String (ascii_of_nat 34) EmptyString).
  now apply drop_trailing_space_snoc.
Qed.

Lemma Unmarshal_string_quoted (s old : string) :
  fragment.Unmarshal_string (dquote ++ fragment.escape s ++ dquote) old
  = (s, None).
Proof.
  unfold fragment.Unmarshal_string. rewrite literal_quoted.
  cbn [dquote String.append].
  change ((String (ascii_of_nat 34) (fragment.escape s ++ dquote) =? "null")
            %string) with false.
  cbv iota. change (nat_of_ascii (ascii_of_nat 34) =? 34)%nat with true.
  cbv iota.
  change (String (ascii_of_nat 34) EmptyString) with dquote.
  now rewrite strip_closing_quote_snoc, unescape_escape.
Qed.

Lemma fragment_round_trips_string (s old : string) :
  round_trips (M := fragment.string_CanMarshal)
              (U := fragment.string_CanUnmarshal) s old.
Proof.
  exists (dquote ++ fragment.escape s ++ dquote).
  split; [reflexivity|]. split; [discriminate|]. split; [discriminate|].
  apply Unmarshal_string_quoted.
Qed.

(** * The mock of the tests, decoded *)

Lemma Marshal_any_label (value : string) :
  fragment.Marshal_any (VMapAny [("label", VString value)])
  = ("{" ++ dquote ++ "label" ++ dquote ++ ":"
         ++ (dquote ++ fragment.escape value ++ dquote) ++ "}", None).
Proof. reflexivity. Qed.

Lemma string_app_assoc (x y z : string) : (x ++ y) ++ z = x ++ y ++ z.
Proof. induction x as [|a x IH]; cbn; [reflexivity|now rewrite IH]. Qed.

Lemma Unmarshal_Label_label (value : string) (old : Label) :
  fragment.Unmarshal_Label
    ("{" ++ dquote ++ "label" ++ dquote ++ ":"
         ++ (dquote ++ fragment.escape value ++ dquote) ++ "}") old
  = (valid_label value, None).
Proof.
  destruct old as [[before valid]].
  set (raw := dquote ++ fragment.escape value ++ dquote).
  assert (Hraw : json.literal raw = raw) by apply literal_quoted.
  assert (Hdecode : fragment.Unmarshal_string raw before = (value, None))
    by apply Unmarshal_string_quoted.
  assert (Hlit : json.literal
                   (("{" ++ dquote ++ "label" ++ dquote ++ ":" ++ raw) ++ "}")
                 = ("{" ++ dquote ++ "label" ++ dquote ++ ":" ++ raw) ++ "}").
  { unfold json.literal at 1. cbn [dquote String.append json.skip_space].
    change (json.is_space "{") with false. cbv iota.
    now apply (drop_trailing_space_snoc
                 ("{" ++ dquote ++ "label" ++ dquote ++ ":" ++ raw) "}"). }
  replace ("{" ++ dquote ++ "label" ++ dquote ++ ":" ++ raw ++ "}")
    with (("{" ++ dquote ++ "label" ++ dquote ++ ":" ++ raw) ++ "}")
    by (cbn [dquote String.append]; reflexivity).
  unfold fragment.Unmarshal_Label. rewrite Hlit.
  clearbody raw. cbn [dquote String.append].
  cbv -[fragment.strip_closing_brace NullEmptyString.UnmarshalJSON
        fragment.string_CanUnmarshal json.literal String.append].
  rewrite strip_closing_brace_snoc, Hraw.
  unfold NullEmptyString.UnmarshalJSON.
  cbn [json.Unmarshal fragment.string_CanUnmarshal
       sql.NullString.String_ Label_Label].
  now rewrite Hdecode.
Qed.

Lemma decodes_to_label (value : string) :
  decodes_to (T := Label)
    (A := fragment.any_CanMarshal) (C := fragment.Label_CanUnmarshal)
    (VMapAny [("label", VString value)]) (valid_label value).
Proof.
  eexists. split.
  - apply Marshal_any_label.
  - apply Unmarshal_Label_label.
Qed.

Lemma MockPageableLabel_data (labels : list string) (data : slice GoAny) :
  slice_elems
    (fold_left
       (fun data value => append data (VMapAny [("label", VString value)]))
       labels data)
  = (slice_elems data
     ++ map (fun value => VMapAny [("label", VString value)]) labels)%list.
Proof.
  revert data. induction labels as [|value labels IH]; intros data.
  - cbn. now rewrite app_nil_r.
  - cbn [fold_left map]. rewrite IH. unfold append. cbn [slice_elems].
    now rewrite <- app_assoc.
Qed.


(** * Pagination parsing: what is accepted, and what is reported *)

Lemma digit_of_range (c : ascii) (d : Z) :
  strconv.digit_of c = Some d -> 0 <= d <= 9.
Proof.
  unfold strconv.digit_of.
  destruct ((48 <=? Z.of_nat (nat_of_ascii c))
            && (Z.of_nat (nat_of_ascii c) <=? 57)) eqn:E; [|discriminate].
  apply andb_true_iff in E as [Hl Hh].
  apply Z.leb_le in Hl, Hh. intros [= <-]. lia.
Qed.

Lemma ParseUint_loop_result (s : string) :
  forall n, 0 <= n ->
  match strconv.ParseUint_loop s n with
  | inl un => 0 <= un
  | inr (un, ErrRange) => un = strconv.maxUint64
  | inr (_, ErrSyntax) => True
  end.
Proof.
  induction s as [|c s IH]; intros n Hn; cbn [strconv.ParseUint_loop].
  - exact Hn.
  - destruct (strconv.digit_of c) as [d|] eqn:Hd; [|exact I].
    apply digit_of_range in Hd. cbv zeta.
    destruct (strconv.maxUint64 / 10 + 1 <=? n); [reflexivity|].
    destruct ((_ <? _) || (_ <? _)); [reflexivity|].
    apply IH. apply Z.mod_pos_bound. reflexivity.
Qed.

(** Whatever the text, and with or without an error, [ParseInt] answers
    an [int64]. *)
Lemma ParseInt_range (s : string) :
  MinInt64 <= fst (strconv.ParseInt s) <= MaxInt64.
Proof.
  unfold MinInt64, MaxInt64, strconv.ParseInt.
  destruct s as [|c rest]; [cbn; lia|].
  set (s' := if Ascii.eqb c "+" || Ascii.eqb c "-" then rest
             else String c rest).
  assert (H : match strconv.ParseUint s' with
              | inl un => 0 <= un
              | inr (un, ErrRange) => un = strconv.maxUint64
              | inr (_, ErrSyntax) => True
              end).
  { unfold strconv.ParseUint. destruct s'; [exact I|].
    apply ParseUint_loop_result. lia. }
  cbv zeta.
  destruct (strconv.ParseUint s') as [un|[un []]]; [|cbn; lia|].
  - destruct (Ascii.eqb c "-"); cbn [negb andb].
    + destruct (9223372036854775808 <? un) eqn:E; cbn [fst]; [lia|].
      apply Z.ltb_ge in E. lia.
    + destruct (9223372036854775808 <=? un) eqn:E; cbn [fst]; [lia|].
      apply Z.leb_gt in E. lia.
  - subst un. unfold strconv.maxUint64.
    destruct (Ascii.eqb c "-"); cbn; lia.
Qed.

Lemma Atoi_range (s : string) :
  MinInt64 <= fst (strconv.Atoi s) <= MaxInt64.
Proof.
  pose proof (ParseInt_range s) as H. unfold strconv.Atoi.
  destruct (strconv.ParseInt s) as [v [e|]]; exact H.
Qed.

(** The error of [Atoi] quotes the text it was given. *)
Lemma Atoi_error (s : string) (n : Z) (e : error) :
  strconv.Atoi s = (n, Some e) -> exists kind, e = NumError "Atoi" s kind.
Proof.
  unfold strconv.Atoi. destruct (strconv.ParseInt s) as [v [k|]];
    [|discriminate].
  intros [= _ <-]. now exists k.
Qed.

Section GetFromURLQuery_results.

Context {K : Constants}.
Variable c : gin.Context.

(** X1: a pagination that [GetFromURLQuery] returns without error has
    an offset and a limit that are non-negative [int]s, whatever the
    query and whatever the two default constants are. *)
Theorem GetFromURLQuery_success_in_range (page : Pagination) :
  GetFromURLQuery c = (page, None) ->
  0 <= Offset page <= MaxInt64 /\ 0 <= Limit page <= MaxInt64.
Proof.
  unfold GetFromURLQuery.
  pose proof (Atoi_range
                (gin.DefaultQuery c "offset" (strconv.Itoa DefaultOffset)))
    as Ho.
  pose proof (Atoi_range
                (gin.DefaultQuery c "limit" (strconv.Itoa DefaultLimit500)))
    as Hl.
  destruct (strconv.Atoi (gin.DefaultQuery c "offset" _))
    as [offset [eo|]]; [discriminate|].
  destruct (offset <? 0) eqn:Hneg; [discriminate|]. apply Z.ltb_ge in Hneg.
  destruct (strconv.Atoi (gin.DefaultQuery c "limit" _))
    as [limit [el|]]; [discriminate|].
  destruct (limit <? 0) eqn:Hnegl; [discriminate|]. apply Z.ltb_ge in Hnegl.
  intros [= <-]. cbn [Offset Limit fst] in *. lia.
Qed.

(** X2: every non-negative [int] is accepted as offset and as limit,
    and comes back as it was written: there is no maximum, the largest
    [int] included.  Only the first value of each parameter is read;
    the values that follow it in the query are ignored, whatever they
    are. *)
Theorem GetFromURLQuery_reads_back
  (offset limit : Z) (more_offsets more_limits : list string) :
  0 <= offset <= MaxInt64 -> 0 <= limit <= MaxInt64 ->
  gin.GetQueryArray c "offset" = Some (strconv.Itoa offset, more_offsets) ->
  gin.GetQueryArray c "limit" = Some (strconv.Itoa limit, more_limits) ->
  GetFromURLQuery c = ({| Offset := offset; Limit := limit |}, None).
Proof.
  intros Ho Hl Hqo Hql. unfold GetFromURLQuery.
  rewrite (DefaultQuery_present c _ _ _ _ Hqo).
  rewrite (DefaultQuery_present c _ _ _ _ Hql).
  rewrite !Atoi_Itoa by (unfold MinInt64, MaxInt64 in *; lia).
  destruct (offset <? 0) eqn:E1; [apply Z.ltb_lt in E1; lia|].
  destruct (limit <? 0) eqn:E2; [apply Z.ltb_lt in E2; lia|].
  reflexivity.
Qed.

(** X3: the offset is checked first.  When the [offset] parameter is
    offending the error is about the key [offset], whatever the
    [limit] parameter is, and its cause is either the error of [Atoi],
    which quotes the value, or the message that the parsed number
    cannot be negative. *)
Theorem GetFromURLQuery_reports_offset_first
  (value : string) (more : list string) :
  gin.GetQueryArray c "offset" = Some (value, more) ->
  offending c "offset" = true ->
  exists cause,
    GetFromURLQuery c
    = (Pagination_zero, Some (BadRequestValueError "offset" VNil cause))
    /\ ((exists kind, cause = NumError "Atoi" value kind)
        \/ (exists n,
              strconv.Atoi value = (n, None) /\ n < 0
              /\ cause = negative_error "offset" n)).
Proof.
  intros Hq. unfold offending, GetFromURLQuery. rewrite Hq.
  rewrite (DefaultQuery_present c _ _ _ _ Hq).
  destruct (strconv.Atoi value) as [n [e|]] eqn:Ha.
  - intros _. exists e. split; [reflexivity|]. left.
    exact (Atoi_error _ _ _ Ha).
  - intros Hneg. rewrite Hneg. eexists. split; [reflexivity|]. right.
    exists n. apply Z.ltb_lt in Hneg. auto.
Qed.

End GetFromURLQuery_results.

(** The request [/?offset=0&limit=100]. *)
Lemma GetFromURLQuery_success_in_range_witness :
  0 <= Offset {| Offset := 0; Limit := 100 |} <= MaxInt64
  /\ 0 <= Limit {| Offset := 0; Limit := 100 |} <= MaxInt64.
Proof.
  apply (GetFromURLQuery_success_in_range
           (K := spec_constants)
           {| gin.queryCache := [("offset", ("0", [])%list);
                                 ("limit", ("100", [])%list)] |}
           {| Offset := 0; Limit := 100 |}).
  reflexivity.
Defined.

(** The request [/?offset=7&offset=pouet&limit=9223372036854775807]. *)
Lemma GetFromURLQuery_reads_back_witness :
  GetFromURLQuery (K := spec_constants)
    {| gin.queryCache :=
         [("offset", ("7", ["pouet"])%list);
          ("limit", ("9223372036854775807", [])%list)] |}
  = ({| Offset := 7; Limit := 9223372036854775807 |}, None).
Proof.
  apply (GetFromURLQuery_reads_back
           (K := spec_constants)
           {| gin.queryCache :=
                [("offset", ("7", ["pouet"])%list);
                 ("limit", ("9223372036854775807", [])%list)] |}
           7 9223372036854775807 ["pouet"]%list []%list).
  - unfold MaxInt64. lia.
  - unfold MaxInt64. lia.
  - reflexivity.
  - reflexivity.
Defined.

(** The request [/?offset=-2&limit=pouet]: both parameters are
    offending, and the error is about the offset. *)
Lemma GetFromURLQuery_reports_offset_first_witness :
  exists cause,
    GetFromURLQuery (K := spec_constants)
      {| gin.queryCache := [("offset", ("-2", [])%list);
                            ("limit", ("pouet", [])%list)] |}
    = (Pagination_zero, Some (BadRequestValueError "offset" VNil cause))
    /\ ((exists kind, cause = NumError "Atoi" "-2" kind)
        \/ (exists n,
              strconv.Atoi "-2" = (n, None) /\ n < 0
              /\ cause = negative_error "offset" n)).
Proof.
  apply (GetFromURLQuery_reports_offset_first
           (K := spec_constants)
           {| gin.queryCache := [("offset", ("-2", [])%list);
                                 ("limit", ("pouet", [])%list)] |}
           "-2" []%list).
  - reflexivity.
  - reflexivity.
Defined.

(** X21: [Default()] has the offset 0 whatever [DefaultOffset] is: it
    is the pagination that [GetFromURLQuery] gives to a request without
    [offset] and without [limit] exactly when the constant
    [DefaultOffset] is 0. *)
Theorem Default_is_the_absent_query_iff {K : Constants} (c : gin.Context) :
  0 <= DefaultOffset <= MaxInt64 -> 0 <= DefaultLimit500 <= MaxInt64 ->
  gin.GetQueryArray c "offset" = None ->
  gin.GetQueryArray c "limit" = None ->
  (GetFromURLQuery c = (Default, None) <-> DefaultOffset = 0).
Proof.
  intros Ho Hl Hqo Hql.
  destruct (GetFromURLQuery_absent c Ho Hl) as (_ & _ & Hboth).
  rewrite (Hboth Hqo Hql). unfold Default. split.
  - now intros [= H].
  - now intros ->.
Qed.

(** A request without query string, with the constants 0 and 500, and
    with the constants 10 and 500. *)
Lemma Default_is_the_absent_query_iff_witness :
  GetFromURLQuery (K := spec_constants) {| gin.queryCache := [] |}
  = (Default (K := spec_constants), None)
  /\ GetFromURLQuery (K := {| DefaultOffset := 10; DefaultLimit500 := 500 |})
       {| gin.queryCache := [] |}
     <> (Default (K := {| DefaultOffset := 10; DefaultLimit500 := 500 |}),
         None).
Proof.
  assert (Hrange : 0 <= 0 <= MaxInt64 /\ 0 <= 10 <= MaxInt64
                   /\ 0 <= 500 <= MaxInt64)
    by (unfold MaxInt64; lia).
  destruct Hrange as (H0 & H10 & H500). split.
  - apply (Default_is_the_absent_query_iff
             (K := spec_constants) {| gin.queryCache := [] |}
             H0 H500 eq_refl eq_refl).
    reflexivity.
  - intros H.
    apply (Default_is_the_absent_query_iff
             (K := {| DefaultOffset := 10; DefaultLimit500 := 500 |})
             {| gin.queryCache := [] |} H10 H500 eq_refl eq_refl) in H.
    discriminate H.
Defined.

(** * Decoding a pageable: all of the payload, or nothing *)

Section PageableToSlice_results.

Context {T : Type} {G : GoType T}.
Context {A : json.CanMarshal GoAny} {C : json.CanUnmarshal T}.

Lemma PageableToSlice_loop_stops (value : GoAny) (values : list GoAny) :
  In value values ->
  (forall x, ~ decodes_to value x) ->
  forall data : slice T,
    PageableToSlice_loop values data = (empty_slice, Some encode_error).
Proof.
  intros Hin Hbad. induction values as [|v rest IH]; intros data;
    [contradiction|].
  cbn [PageableToSlice_loop].
  destruct (json.Marshal v) as [jsonBytes [e|]] eqn:Hm; [reflexivity|].
  destruct (json.Unmarshal jsonBytes zero_value) as [x [e|]] eqn:Hu;
    [reflexivity|].
  destruct Hin as [<-|Hin].
  - exfalso. apply (Hbad x). now exists jsonBytes.
  - now apply IH.
Qed.

Lemma PageableToSlice_loop_success (values : list GoAny) :
  forall data result : slice T,
    PageableToSlice_loop values data = (result, None) ->
    exists typed,
      Forall2 decodes_to values typed
      /\ result = match typed with
                  | [] => data
                  | _ => make_slice (slice_elems data ++ typed)
                  end.
Proof.
  induction values as [|v rest IH]; intros data result;
    cbn [PageableToSlice_loop].
  - intros [= <-]. exists []. split; [constructor|reflexivity].
  - destruct (json.Marshal v) as [jsonBytes [e|]] eqn:Hm; [discriminate|].
    destruct (json.Unmarshal jsonBytes zero_value) as [x [e|]] eqn:Hu;
      [discriminate|].
    intros Hloop. destruct (IH _ _ Hloop) as (typed & Hall & ->).
    exists (x :: typed). split.
    + constructor; [now exists jsonBytes|exact Hall].
    + unfold append. cbn [slice_elems].
      destruct typed; [reflexivity|]. now rewrite <- app_assoc.
Qed.

(** X4: one element of the payload that does not decode, wherever it
    stands, makes [PageableToSlice] fail with the encoding error and
    the empty slice: the elements decoded before it are dropped. *)
Theorem PageableToSlice_all_or_nothing
  (pageable : Pageable) (sliceInterface : slice GoAny) (value : GoAny) :
  Data pageable = VSliceAny sliceInterface ->
  In value (slice_elems sliceInterface) ->
  (forall x, ~ decodes_to value x) ->
  PageableToSlice (T := T) pageable = (empty_slice, Some encode_error).
Proof.
  intros Hdata Hin Hbad. unfold PageableToSlice. rewrite Hdata.
  now apply (PageableToSlice_loop_stops value).
Qed.

(** X5: when [PageableToSlice] returns without error, the payload was
    a [[]interface{}] and the result holds, in the same order and in
    the same number, what each of its elements decodes to; the result
    is the nil slice exactly when the payload has no element. *)
Theorem PageableToSlice_success (pageable : Pageable) (data : slice T) :
  PageableToSlice pageable = (data, None) ->
  exists sliceInterface,
    Data pageable = VSliceAny sliceInterface
    /\ Forall2 decodes_to (slice_elems sliceInterface) (slice_elems data)
    /\ (slice_elems sliceInterface = [] <-> data = nil_slice).
Proof.
  unfold PageableToSlice.
  destruct (Data pageable) as [| | | | | |s| | | | |]; try discriminate.
  intros Hloop. exists s. split; [reflexivity|].
  destruct (PageableToSlice_loop_success _ _ _ Hloop) as (typed & Hall & ->).
  destruct typed as [|x typed].
  - split; [exact Hall|]. inversion Hall. split; reflexivity.
  - cbn [slice_elems app]. split; [exact Hall|].
    inversion Hall; subst. split; discriminate.
Qed.

End PageableToSlice_results.

(** A label that decodes, followed by a string, which does not. *)
Lemma PageableToSlice_all_or_nothing_witness :
  PageableToSlice (T := Label)
    (A := fragment.any_CanMarshal) (C := fragment.Label_CanUnmarshal)
    {| Pageable_Limit := 10; Pageable_Offset := 0; Total := 2;
       Data := VSliceAny
                 (make_slice [VMapAny [("label", VString "hello")];
                              VString "toto"]) |}
  = (empty_slice, Some encode_error).
Proof.
  apply (PageableToSlice_all_or_nothing
           (T := Label)
           (A := fragment.any_CanMarshal) (C := fragment.Label_CanUnmarshal)
           {| Pageable_Limit := 10; Pageable_Offset := 0; Total := 2;
              Data := VSliceAny
                        (make_slice [VMapAny [("label", VString "hello")];
                                     VString "toto"]) |}
           (make_slice [VMapAny [("label", VString "hello")];
                        VString "toto"])
           (VString "toto")).
  - reflexivity.
  - right. left. reflexivity.
  - intros x (jsonBytes & Hm & Hu).
    vm_compute in Hm. injection Hm as <-.
    vm_compute in Hu. discriminate Hu.
Defined.

(** The payload of one label. *)
Lemma PageableToSlice_success_witness :
  exists sliceInterface,
    VSliceAny (make_slice [VMapAny [("label", VString "hello")]])
    = VSliceAny sliceInterface
    /\ Forall2
         (decodes_to (T := Label)
            (A := fragment.any_CanMarshal) (C := fragment.Label_CanUnmarshal))
         (slice_elems sliceInterface) [valid_label "hello"]
    /\ (slice_elems sliceInterface = []
        <-> make_slice [valid_label "hello"] = nil_slice).
Proof.
  apply (PageableToSlice_success
           (T := Label)
           (A := fragment.any_CanMarshal) (C := fragment.Label_CanUnmarshal)
           {| Pageable_Limit := 10; Pageable_Offset := 0; Total := 1;
              Data := VSliceAny
                        (make_slice [VMapAny [("label", VString "hello")]]) |}
           (make_slice [valid_label "hello"])).
  reflexivity.
Defined.

Lemma MockPageableLabel_slice (labels : list string) (data : slice GoAny) :
  fold_left
    (fun data value => append data (VMapAny [("label", VString value)]))
    labels data
  = match labels with
    | [] => data
    | _ =>
        make_slice
          (slice_elems data
           ++ map (fun value => VMapAny [("label", VString value)]) labels)
    end.
Proof.
  revert data. induction labels as [|value labels IH]; intros data;
    [reflexivity|].
  cbn [fold_left map]. rewrite IH. unfold append. cbn [slice_elems].
  destruct labels; [reflexivity|]. now rewrite <- app_assoc.
Qed.

(** X6: the total of the mock is the number of labels it is given, and
    its payload is one object per label, in the order of the labels,
    with the label under the key [label]; without labels the payload
    is the nil slice. *)
Theorem MockPageableLabel_shape (labels : list string) :
  Total (MockPageableLabel labels) = Z.of_nat (List.length labels)
  /\ Data (MockPageableLabel labels)
     = VSliceAny
         match labels with
         | [] => nil_slice
         | _ =>
             make_slice
               (map (fun value => VMapAny [("label", VString value)]) labels)
         end.
Proof.
  unfold MockPageableLabel. cbn [Total Data].
  rewrite MockPageableLabel_slice. split.
  - destruct labels; [reflexivity|].
    cbn [slice_elems app]. now rewrite length_map.
  - now destruct labels.
Qed.

(** * The wrappers: what the accessors agree on *)

(** X8: the integer wrappers are written as [null] in exactly one
    case each, and as the decimal text of the integer otherwise,
    never with an error.  For [NullInt] the case is [IsEmpty]; for
    [JSONNullInt64] it is an invalid wrapper, which is also the case
    where [MapForRequest] answers nil, so that a valid 0 is written
    as 0. *)
Theorem integer_wrappers_null_iff :
  (forall ni : NullInt.t,
      (NullInt.MarshalJSON ni = ("null", None) <-> NullInt.IsEmpty ni = true)
      /\ (NullInt.IsEmpty ni = false ->
          NullInt.MarshalJSON ni
          = (strconv.Itoa (sql.NullInt64.Int64 ni), None)))
  /\ (forall v : JSONNullInt64.t,
      (JSONNullInt64.MarshalJSON v = ("null", None)
       <-> sql.NullInt64.Valid v = false)
      /\ (JSONNullInt64.MarshalJSON v = ("null", None)
          <-> JSONNullInt64.MapForRequest v = VNil)
      /\ (sql.NullInt64.Valid v = true ->
          JSONNullInt64.MarshalJSON v
          = (strconv.Itoa (sql.NullInt64.Int64 v), None))).
Proof.
  split.
  - intros [i valid]. unfold NullInt.MarshalJSON, NullInt.IsEmpty.
    cbn [sql.NullInt64.Int64 sql.NullInt64.Valid json.Marshal
         json.int64_CanMarshal].
    unfold json.Marshal_int64.
    destruct (negb valid || (i =? 0)); split; try split;
      try reflexivity; try discriminate.
    intros [= H]. now destruct (Itoa_not_null i).
  - intros [i valid]. unfold JSONNullInt64.MarshalJSON,
      JSONNullInt64.MapForRequest.
    cbn [sql.NullInt64.Int64 sql.NullInt64.Valid json.Marshal
         json.int64_CanMarshal].
    unfold json.Marshal_int64, json.Marshal_nil.
    destruct valid; repeat split; try reflexivity; try discriminate.
    all: intros [= H]; now destruct (Itoa_not_null i).
Qed.

(** A valid 0: empty for [NullInt], written as 0 by
    [JSONNullInt64]. *)
Lemma integer_wrappers_null_iff_witness :
  NullInt.MarshalJSON (sql.NullInt64.mk 0 true) = ("null", None)
  /\ JSONNullInt64.MarshalJSON (sql.NullInt64.mk 0 true)
     = (strconv.Itoa 0, None).
Proof.
  destruct integer_wrappers_null_iff as [HNullInt HJSON]. split.
  - apply (HNullInt (sql.NullInt64.mk 0 true)). reflexivity.
  - apply (HJSON (sql.NullInt64.mk 0 true)). reflexivity.
Defined.

(** X9: for a valid [NullInt], [MapToInt32] answers the very integer
    that [MapToInt64] answers, without error, exactly when the integer
    is an [int32]. *)
Theorem MapToInt32_exact_iff (ni : NullInt.t) :
  sql.NullInt64.Valid ni = true ->
  (NullInt.MapToInt32 ni = (NullInt.MapToInt64 ni, None)
   <-> MinInt32 <= sql.NullInt64.Int64 ni <= MaxInt32).
Proof.
  destruct ni as [i valid]. cbn [sql.NullInt64.Int64 sql.NullInt64.Valid].
  intros ->. unfold NullInt.MapToInt32, NullInt.MapToInt64.
  cbn [sql.NullInt64.Int64 sql.NullInt64.Valid negb].
  pose proof (int32_of_int64_range i) as Hr.
  destruct (MaxInt32 <? i) eqn:E.
  - apply Z.ltb_lt in E. split; [discriminate|lia].
  - apply Z.ltb_ge in E. split.
    + intros [= H]. rewrite H in Hr. exact Hr.
    + intros [Hmin _]. do 2 f_equal.
      unfold int32_of_int64, MinInt32, MaxInt32 in *.
      rewrite Z.mod_small by lia. lia.
Qed.

(** The smallest [int32]. *)
Lemma MapToInt32_exact_iff_witness :
  NullInt.MapToInt32 (sql.NullInt64.mk (-2147483648) true)
  = (NullInt.MapToInt64 (sql.NullInt64.mk (-2147483648) true), None).
Proof.
  apply (MapToInt32_exact_iff (sql.NullInt64.mk (-2147483648) true)).
  - reflexivity.
  - unfold MinInt32, MaxInt32. cbn. lia.
Defined.

(** X10: the accessors of [NullBool] agree.  [MapForRequest] answers
    nil, 1 or 0 as [MapToBool] answers nil, true or false; [IsEmpty]
    holds unless [MapToBool] answers true; the wrapper is written as
    [null] exactly when [MapToBool] answers nil, and as [true] exactly
    when it is not empty. *)
Theorem NullBool_accessors_agree (nb : NullBool.t) :
  NullBool.MapForRequest nb
  = match NullBool.MapToBool nb with
    | None => VNil
    | Some true => VInt 1
    | Some false => VInt 0
    end
  /\ NullBool.IsEmpty nb
     = match NullBool.MapToBool nb with
       | Some true => false
       | _ => true
       end
  /\ (NullBool.MarshalJSON nb = ("null", None)
      <-> NullBool.MapToBool nb = None)
  /\ (NullBool.MarshalJSON nb = ("true", None)
      <-> NullBool.IsEmpty nb = false).
Proof.
  destruct nb as [[] []]; cbn; repeat split; try congruence; discriminate.
Qed.

Lemma literal_null : json.literal "null" = "null".
Proof. reflexivity. Qed.

(** X11: [NullBool.UnmarshalJSON] succeeds exactly on the JSON texts
    [true], [false] and [null], white space around them allowed.  On
    [true] and [false] the wrapper is valid and holds the boolean; on a
    [null] with white space around it the wrapper becomes valid and
    keeps the boolean it held, where the bytes [null] alone make it
    invalid; on an error it is invalid and keeps its boolean. *)
Theorem NullBool_UnmarshalJSON_cases (nb : NullBool.t) (b : bytes) :
  (snd (NullBool.UnmarshalJSON nb b) = None
   <-> json.literal b = "true" \/ json.literal b = "false"
       \/ json.literal b = "null")
  /\ (json.literal b = "true" ->
      NullBool.UnmarshalJSON nb b = (sql.NullBool.mk true true, None))
  /\ (json.literal b = "false" ->
      NullBool.UnmarshalJSON nb b = (sql.NullBool.mk false true, None))
  /\ (json.literal b = "null" -> b <> "null" ->
      NullBool.UnmarshalJSON nb b
      = (sql.NullBool.mk (sql.NullBool.Bool nb) true, None))
  /\ (snd (NullBool.UnmarshalJSON nb b) <> None ->
      fst (NullBool.UnmarshalJSON nb b)
      = sql.NullBool.mk (sql.NullBool.Bool nb) false).
Proof.
  unfold NullBool.UnmarshalJSON.
  cbn [json.Unmarshal json.bool_CanUnmarshal]. unfold json.Unmarshal_bool.
  destruct (String.eqb_spec b "null") as [->|Hb].
  - rewrite literal_null. cbn.
    repeat split; auto; try discriminate; congruence.
  - destruct (String.eqb_spec (json.literal b) "null") as [->|Hn].
    + cbn. repeat split; auto; try discriminate; congruence.
    + destruct (String.eqb_spec (json.literal b) "true") as [->|Ht].
      * cbn. repeat split; auto; try discriminate; congruence.
      * destruct (String.eqb_spec (json.literal b) "false") as [->|Hf].
        -- cbn. repeat split; auto; try discriminate; congruence.
        -- cbn. repeat split; auto; try discriminate; try congruence.
           intros [|[|]]; congruence.
Qed.

(** A [null] after a space, read into an invalid [false]. *)
Lemma NullBool_UnmarshalJSON_cases_witness :
  NullBool.UnmarshalJSON (sql.NullBool.mk false false) " null"
  = (sql.NullBool.mk false true, None).
Proof.
  destruct (NullBool_UnmarshalJSON_cases
              (sql.NullBool.mk false false) " null")
    as (_ & _ & _ & Hnull & _).
  apply Hnull.
  - reflexivity.
  - discriminate.
Defined.

(** X12: [BeforeOrEqual] and [AfterOrEqual] are each an order on the
    times that the wrappers hold, whatever their validity flags:
    reflexive, transitive, and antisymmetric up to the identity of the
    two times. *)
Theorem BeforeOrEqual_AfterOrEqual_are_orders :
  (forall a : NullTime.t, NullTime.BeforeOrEqual a a = true)
  /\ (forall a b : NullTime.t,
      NullTime.BeforeOrEqual a b = true -> NullTime.BeforeOrEqual b a = true ->
      sql.NullTime.Time a = sql.NullTime.Time b)
  /\ (forall a b c : NullTime.t,
      NullTime.BeforeOrEqual a b = true -> NullTime.BeforeOrEqual b c = true ->
      NullTime.BeforeOrEqual a c = true)
  /\ (forall a : NullTime.t, NullTime.AfterOrEqual a a = true)
  /\ (forall a b : NullTime.t,
      NullTime.AfterOrEqual a b = true -> NullTime.AfterOrEqual b a = true ->
      sql.NullTime.Time a = sql.NullTime.Time b)
  /\ (forall a b c : NullTime.t,
      NullTime.AfterOrEqual a b = true -> NullTime.AfterOrEqual b c = true ->
      NullTime.AfterOrEqual a c = true).
Proof.
  unfold NullTime.BeforeOrEqual, NullTime.AfterOrEqual, time.IsZero,
    time.eqb, time.Before, time.After.
  repeat split.
  all: intros [[na la] va]; try intros [[nb lb] vb]; try intros [[nc lc] vc];
    cbn [sql.NullTime.Time time.nanos time.loc].
  all: repeat match goal with
         | |- context [?x =? ?y] =>
             destruct (Z.eqb_spec x y); cbn [negb andb orb]
         | |- context [?x <? ?y] =>
             destruct (Z.ltb_spec x y); cbn [negb andb orb]
         end;
    try reflexivity; try discriminate; try lia;
    intros; try discriminate; try (f_equal; lia); try congruence.
Qed.

(** The years 2000 and 2001, and the zero time after them. *)
Lemma BeforeOrEqual_AfterOrEqual_are_orders_witness :
  NullTime.BeforeOrEqual
    (sql.NullTime.mk y2000 true) (sql.NullTime.mk time.zero false) = true.
Proof.
  destruct BeforeOrEqual_AfterOrEqual_are_orders as (_ & _ & Htrans & _).
  apply (Htrans
           (sql.NullTime.mk y2000 true)
           (sql.NullTime.mk
              {| time.nanos := 63113904000000000000; time.loc := 0 |} true)
           (sql.NullTime.mk time.zero false)).
  - reflexivity.
  - reflexivity.
Defined.

(** X13: the two comparisons hold together exactly when the two times
    are identical, location included; and when both times are zero or
    both are not, [AfterOrEqual] is [BeforeOrEqual] with its two sides
    exchanged. *)
Theorem AfterOrEqual_BeforeOrEqual_meet (nt t : NullTime.t) :
  (NullTime.AfterOrEqual nt t = true /\ NullTime.BeforeOrEqual nt t = true
   <-> sql.NullTime.Time nt = sql.NullTime.Time t)
  /\ (time.IsZero (sql.NullTime.Time nt) = time.IsZero (sql.NullTime.Time t) ->
      NullTime.AfterOrEqual nt t = NullTime.BeforeOrEqual t nt).
Proof.
  unfold NullTime.BeforeOrEqual, NullTime.AfterOrEqual, time.IsZero,
    time.eqb, time.Before, time.After.
  destruct nt as [[na la] va], t as [[nb lb] vb].
  cbn [sql.NullTime.Time time.nanos time.loc].
  split; [split|].
  all: repeat match goal with
         | |- context [?x =? ?y] =>
             destruct (Z.eqb_spec x y); cbn [negb andb orb]
         | |- context [?x <? ?y] =>
             destruct (Z.ltb_spec x y); cbn [negb andb orb]
         end;
    try reflexivity; try discriminate; try lia;
    intros; try discriminate; try (f_equal; lia); try congruence;
    try (split; congruence); try tauto.
Qed.

(** The year 2000 against the year 2001. *)
Lemma AfterOrEqual_BeforeOrEqual_meet_witness :
  NullTime.AfterOrEqual
    (sql.NullTime.mk y2000 true)
    (sql.NullTime.mk
       {| time.nanos := 63113904000000000000; time.loc := 0 |} true)
  = NullTime.BeforeOrEqual
      (sql.NullTime.mk
         {| time.nanos := 63113904000000000000; time.loc := 0 |} true)
      (sql.NullTime.mk y2000 true).
Proof.
  apply (AfterOrEqual_BeforeOrEqual_meet
           (sql.NullTime.mk y2000 true)
           (sql.NullTime.mk
              {| time.nanos := 63113904000000000000; time.loc := 0 |} true)).
  reflexivity.
Defined.

(** * Scanning: the value decides the validity *)

Lemma Itoa_not_empty (i : Z) : strconv.Itoa i <> EmptyString.
Proof.
  unfold strconv.Itoa.
  destruct i as [|p|p]; cbn [Z.to_int NilEmpty.string_of_int];
    try discriminate.
  pose proof (DecimalPos.Unsigned.to_uint_nonnil p) as Hnil.
  destruct (Pos.to_uint p); try discriminate. now destruct Hnil.
Qed.

Section Scan_results.

Context {P : math.Platform} {D : SQLConvert} {X : SQLText}.

(** X14: after a [NullFloat.Scan] without error the wrapper is valid
    exactly when the float it holds is not 0, so that [IsEmpty] is the
    negation of the validity flag; a [Scan] that fails was not given
    nil and leaves the wrapper as it was. *)
Theorem NullFloat_Scan_outcome
  (nf r : NullFloat.t) (value : GoAny) (err : option error) :
  NullFloat.Scan nf value = (r, err) ->
  (err = None ->
   sql.NullFloat64.Valid r = negb (math.is_zero (sql.NullFloat64.Float64 r))
   /\ NullFloat.IsEmpty r = negb (sql.NullFloat64.Valid r))
  /\ (err <> None -> r = nf /\ value <> VNil).
Proof.
  unfold NullFloat.Scan, NullFloat.IsEmpty.
  assert (Hnil : (None : option error) <> None -> r = nf /\ value <> VNil)
    by (intros Hc; now destruct Hc).
  destruct value as [|b|n|n|f|s|s|m|s|s|s|s];
    try (intros [= <- <-]; split; [now split|exact Hnil]).
  all: destruct (NullFloat.sql_Scan _) as [scanned [e|]];
    [intros [= <- <-]; split; [discriminate|split; congruence]|].
  all: destruct (math.IsNaN (sql.NullFloat64.Float64 scanned));
    [intros [= <- <-]; split; [now split|exact Hnil]|].
  all: cbn [sql.NullFloat64.Float64 sql.NullFloat64.Valid].
  all: destruct (math.is_zero _) eqn:Hz; intros [= <- <-];
    cbn [sql.NullFloat64.Float64 sql.NullFloat64.Valid];
    rewrite ?Hz; (split; [now split|exact Hnil]).
Qed.

(** X15: after a [NullInt.Scan] without error the wrapper is valid
    exactly when the integer it holds is not 0, so that [IsEmpty] is
    the negation of the validity flag and [MarshalJSON] writes [null]
    exactly for an invalid wrapper; a [Scan] that fails was not given
    nil and leaves the wrapper as it was. *)
Theorem NullInt_Scan_outcome
  (ni r : NullInt.t) (value : GoAny) (err : option error) :
  NullInt.Scan ni value = (r, err) ->
  (err = None ->
   sql.NullInt64.Valid r = negb (sql.NullInt64.Int64 r =? 0)
   /\ NullInt.IsEmpty r = negb (sql.NullInt64.Valid r)
   /\ (NullInt.MarshalJSON r = ("null", None)
       <-> sql.NullInt64.Valid r = false))
  /\ (err <> None -> r = ni /\ value <> VNil).
Proof.
  assert (Hvalid : forall i valid,
             valid = negb (i =? 0) ->
             let r := sql.NullInt64.mk i valid in
             sql.NullInt64.Valid r = negb (sql.NullInt64.Int64 r =? 0)
             /\ NullInt.IsEmpty r = negb (sql.NullInt64.Valid r)
             /\ (NullInt.MarshalJSON r = ("null", None)
                 <-> sql.NullInt64.Valid r = false)).
  { intros i valid ->. unfold NullInt.IsEmpty, NullInt.MarshalJSON.
    cbn [sql.NullInt64.Int64 sql.NullInt64.Valid json.Marshal
         json.int64_CanMarshal].
    unfold json.Marshal_int64.
    destruct (i =? 0); cbn; repeat split; try congruence.
    intros [= H]. now destruct (Itoa_not_null i). }
  unfold NullInt.Scan.
  destruct (NullInt.sql_Scan value) as [i [e|]] eqn:Hs.
  - intros [= <- <-]. split; [discriminate|]. intros _.
    destruct value; try discriminate Hs; split; congruence.
  - cbn [sql.NullInt64.Int64 sql.NullInt64.Valid].
    destruct (sql.NullInt64.Int64 i =? 0) eqn:Hz; intros [= <- <-];
      (split; [intros _; apply Hvalid; now rewrite Hz|congruence]).
Qed.

(** X16: [NullInt.Scan] takes an integer from an [int64], from an
    [int] and from its decimal text alike: for every [int64] the three
    give the same wrapper, which holds the integer and is valid unless
    the integer is 0. *)
Theorem NullInt_Scan_reads_text (ni : NullInt.t) (i : Z) :
  MinInt64 <= i <= MaxInt64 ->
  NullInt.Scan ni (VInt64 i) = (sql.NullInt64.mk i (negb (i =? 0)), None)
  /\ NullInt.Scan ni (VInt i) = NullInt.Scan ni (VInt64 i)
  /\ NullInt.Scan ni (VString (strconv.Itoa i)) = NullInt.Scan ni (VInt64 i).
Proof.
  intros Hi. unfold NullInt.Scan, NullInt.sql_Scan.
  cbn [asString]. rewrite (ParseInt_Itoa i Hi).
  cbn [sql.NullInt64.Int64 sql.NullInt64.Valid].
  destruct (i =? 0); repeat split.
Qed.

(** X17: after a [NullString.Scan] without error the wrapper is valid
    exactly when the string it holds is not empty, so that [IsEmpty]
    is the negation of the validity flag; a scanned integer is stored
    as its decimal text and is valid, 0 included; a [Scan] that fails
    was not given nil and leaves the wrapper as it was. *)
Theorem NullString_Scan_outcome
  (ns r : NullString.t) (value : GoAny) (err : option error) :
  NullString.Scan ns value = (r, err) ->
  (err = None ->
   sql.NullString.Valid r
   = negb (sql.NullString.String_ r =? EmptyString)%string
   /\ NullString.IsEmpty r = negb (sql.NullString.Valid r))
  /\ (forall i, value = VInt64 i \/ value = VInt i ->
      r = sql.NullString.mk (strconv.Itoa i) true /\ err = None)
  /\ (err <> None -> r = ns /\ value <> VNil).
Proof.
  assert (Hint : forall i,
             NullString.Scan ns (VInt64 i)
             = (sql.NullString.mk (strconv.Itoa i) true, None)
             /\ NullString.Scan ns (VInt i)
                = (sql.NullString.mk (strconv.Itoa i) true, None)).
  { intros i. unfold NullString.Scan, NullString.sql_Scan.
    cbn [asString sql.NullString.String_ sql.NullString.Valid andb].
    destruct (String.eqb_spec (strconv.Itoa i) EmptyString) as [E|_];
      [now destruct (Itoa_not_empty i)|]. now split. }
  intros H. split; [|split].
  - revert H. unfold NullString.Scan, NullString.IsEmpty.
    destruct (NullString.sql_Scan value) as [[s valid] [e|]] eqn:Hs;
      [intros [= <- <-]; discriminate|].
    assert (Hv : valid = false -> s = EmptyString).
    { intros ->. unfold NullString.sql_Scan in Hs.
      destruct value; cbn [asString] in Hs;
        try destruct (convertAssign_string _); congruence. }
    cbn [sql.NullString.String_ sql.NullString.Valid].
    destruct valid; cbn [andb].
    + destruct (s =? EmptyString)%string eqn:Hz; intros [= <- <-] _;
        cbn [sql.NullString.String_ sql.NullString.Valid];
        rewrite Hz; now split.
    + rewrite (Hv eq_refl). intros [= <- <-] _. now split.
  - intros i [->| ->]; destruct (Hint i) as [H64 Hi];
      rewrite ?H64, ?Hi in H; injection H as <- <-; now split.
  - revert H. unfold NullString.Scan.
    destruct (NullString.sql_Scan value) as [i [e|]] eqn:Hs.
    + intros [= <- <-] _.
      destruct value; try discriminate Hs; split; congruence.
    + destruct (_ && _); intros [= <- <-]; congruence.
Qed.

End Scan_results.

(** The float 1.23456789, which is stored as 1.2345. *)
Lemma NullFloat_Scan_outcome_witness :
  sql.NullFloat64.Valid
    (sql.NullFloat64.mk
       (math.div (math.float64_of_int 12345) (math.float64_of_int 10000))
       true)
  = negb
      (math.is_zero
         (sql.NullFloat64.Float64
            (sql.NullFloat64.mk
               (math.div (math.float64_of_int 12345)
                         (math.float64_of_int 10000))
               true))).
Proof.
  apply (NullFloat_Scan_outcome
           (P := math.amd64) (D := fragment.convert)
           (sql.NullFloat64.mk (S754_zero false) false)
           (sql.NullFloat64.mk
              (math.div (math.float64_of_int 12345)
                        (math.float64_of_int 10000))
              true)
           (VFloat64 (math.div (math.float64_of_int 123456789)
                               (math.float64_of_int 100000000)))
           None).
  - vm_compute. reflexivity.
  - reflexivity.
Defined.

(** The text of 0, scanned into a valid 7: the wrapper is invalid and
    written as [null]. *)
Lemma NullInt_Scan_outcome_witness :
  sql.NullInt64.Valid (sql.NullInt64.mk 0 false)
  = negb (sql.NullInt64.Int64 (sql.NullInt64.mk 0 false) =? 0)
  /\ NullInt.IsEmpty (sql.NullInt64.mk 0 false)
     = negb (sql.NullInt64.Valid (sql.NullInt64.mk 0 false))
  /\ (NullInt.MarshalJSON (sql.NullInt64.mk 0 false) = ("null", None)
      <-> sql.NullInt64.Valid (sql.NullInt64.mk 0 false) = false).
Proof.
  apply (NullInt_Scan_outcome
           (X := fragment.text)
           (sql.NullInt64.mk 7 true) (sql.NullInt64.mk 0 false)
           (VString "0") None).
  - reflexivity.
  - reflexivity.
Defined.

(** The largest [int64]. *)
Lemma NullInt_Scan_reads_text_witness :
  NullInt.Scan (X := fragment.text)
    (sql.NullInt64.mk 0 false) (VString (strconv.Itoa 9223372036854775807))
  = NullInt.Scan (X := fragment.text)
      (sql.NullInt64.mk 0 false) (VInt64 9223372036854775807).
Proof.
  apply (NullInt_Scan_reads_text
           (X := fragment.text)
           (sql.NullInt64.mk 0 false) 9223372036854775807).
  unfold MinInt64, MaxInt64. lia.
Defined.

(** The integer 0, scanned into an invalid wrapper: the valid string
    of the digit 0. *)
Lemma NullString_Scan_outcome_witness :
  sql.NullString.mk "0" true = sql.NullString.mk (strconv.Itoa 0) true
  /\ @None error = None.
Proof.
  apply (NullString_Scan_outcome
           (X := fragment.text)
           (sql.NullString.mk EmptyString false) (sql.NullString.mk "0" true)
           (VInt64 0) None).
  - reflexivity.
  - left. reflexivity.
Defined.


(** * Scanning a time: the date is kept, the clock and the zone are not *)

(** The year of a day of an era of 400 years, and the day of that
    year, which begins in March. *)
Lemma year_of_era_bounds (doe : Z) :
  0 <= doe <= 146096 ->
  let yoe := (doe - doe / 1460 + doe / 36524 - doe / 146096) / 365 in
  let doy := doe - (365 * yoe + yoe / 4 - yoe / 100) in
  0 <= yoe <= 399 /\ 0 <= doy <= 365.
Proof. intros H. cbv zeta. Z.div_mod_to_equations. lia. Qed.

Lemma month_of_year_bounds (doy : Z) :
  0 <= doy <= 365 ->
  let mp := (5 * doy + 2) / 153 in
  0 <= mp <= 11 /\ 1 <= doy - (153 * mp + 2) / 5 + 1 <= 31.
Proof. intros H. cbv zeta. Z.div_mod_to_equations. lia. Qed.

(** The day number of the date of a day is that day, and the date has
    one of the twelve months, so that [time.Date] takes it as it
    is. *)
Lemma days_from_civil_from_days (n : Z) :
  let '(y, m, d) := fragment.civil_from_days n in
  fragment.days_from_civil y m d = n /\ 1 <= m <= 12 /\ 1 <= d <= 31.
Proof.
  unfold fragment.civil_from_days. cbv zeta.
  set (era := (n + 306) / 146097).
  set (doe := n + 306 - era * 146097).
  assert (Hdoe : 0 <= doe <= 146096).
  { subst doe era. Z.div_mod_to_equations. lia. }
  destruct (year_of_era_bounds doe Hdoe) as [Hyoe Hdoy].
  set (yoe := (doe - doe / 1460 + doe / 36524 - doe / 146096) / 365) in *.
  set (doy := doe - (365 * yoe + yoe / 4 - yoe / 100)) in *.
  destruct (month_of_year_bounds doy Hdoy) as [Hmp Hd].
  set (mp := (5 * doy + 2) / 153) in *.
  set (d := doy - (153 * mp + 2) / 5 + 1) in *.
  assert (Hera : forall y, y = yoe + era * 400 -> y / 400 = era).
  { intros y ->. rewrite Z.div_add by discriminate.
    rewrite Z.div_small by lia. lia. }
  unfold fragment.days_from_civil. cbv zeta.
  destruct (mp <? 10) eqn:Hlt.
  - apply Z.ltb_lt in Hlt.
    replace (mp + 3 <=? 2) with false by (symmetry; apply Z.leb_gt; lia).
    replace (2 <? mp + 3) with true by (symmetry; apply Z.ltb_lt; lia).
    rewrite (Hera (yoe + era * 400 + 0)) by lia.
    replace (mp + 3 - 3) with mp by lia.
    replace (yoe + era * 400 + 0 - era * 400) with yoe by lia.
    fold d. subst doy doe. lia.
  - apply Z.ltb_ge in Hlt.
    replace (mp - 9 <=? 2) with true by (symmetry; apply Z.leb_le; lia).
    replace (2 <? mp - 9) with false by (symmetry; apply Z.ltb_ge; lia).
    rewrite (Hera (yoe + era * 400 + 1 - 1)) by lia.
    replace (mp - 9 + 9) with mp by lia.
    replace (yoe + era * 400 + 1 - 1 - era * 400) with yoe by lia.
    fold d. subst doy doe. lia.
Qed.

Section NullTime_Scan_results.

Context {Ls : Locations}.

(** The midnight in UTC of the day of [t] in its location. *)
Lemma time_Date_of_local_day (t : time.Time) :
  time_Date (time_Year t) (time_Month t) (time_Day t)
  = {| time.nanos := local_day t * fragment.nanos_per_day; time.loc := 0 |}.
Proof.
  unfold time_Date, time_Year, time_Month, time_Day.
  pose proof (days_from_civil_from_days (local_day t)) as H.
  destruct (fragment.civil_from_days (local_day t)) as [[y m] d].
  destruct H as [-> _]. reflexivity.
Qed.

(** X18: after a [NullTime.Scan] without error the wrapper is valid
    exactly when the time it holds is not the zero time; a value that
    is neither nil nor a time is refused; a [Scan] that fails leaves
    the wrapper as it was. *)
Theorem NullTime_Scan_outcome
  (nt r : NullTime.t) (value : Scanned) (err : option error) :
  NullTime_Scan nt value = (r, err) ->
  (err = None ->
   sql.NullTime.Valid r = negb (time.IsZero (sql.NullTime.Time r)))
  /\ (forall v, value = AValue v -> v <> VNil -> err <> None)
  /\ (err <> None -> r = nt /\ value <> AValue VNil).
Proof.
  unfold NullTime_Scan.
  destruct value as [t|v].
  - cbn [NullTime_sql_Scan sql.NullTime.Time].
    destruct (time_Zone t) as [zone offset].
    destruct (negb (zone =? "UTC")%string);
      cbn [sql.NullTime.Time sql.NullTime.Valid];
      match goal with
      | |- context [time.IsZero ?x] => destruct (time.IsZero x) eqn:Hz
      end;
      intros [= <- <-]; cbn [sql.NullTime.Time sql.NullTime.Valid];
      rewrite ?Hz; repeat split; try congruence; discriminate.
  - destruct v; cbn; intros [= <- <-]; repeat split;
      try congruence; try discriminate.
Qed.

(** X19: a scanned time whose zone is not named UTC is replaced by the
    midnight, in UTC, of its calendar day in its own location: the
    instant shifted by the offset of the zone, rounded down to a whole
    day.  A time whose zone is named UTC is kept as it is, with its
    clock and its location, whatever the offset of that zone.  In both
    cases the wrapper is valid unless the time stored is the zero
    time. *)
Theorem NullTime_Scan_of_a_time (nt : NullTime.t) (t : time.Time) :
  let midnight :=
    {| time.nanos :=
         (time.nanos t + snd (time_Zone t) * fragment.nanos_per_second)
         / fragment.nanos_per_day * fragment.nanos_per_day;
       time.loc := 0 |} in
  (fst (time_Zone t) <> "UTC" ->
   NullTime_Scan nt (ATime t)
   = (sql.NullTime.mk midnight (negb (time.IsZero midnight)), None)
     /\ time.nanos midnight mod fragment.nanos_per_day = 0
     /\ time.nanos midnight
        <= time.nanos t + snd (time_Zone t) * fragment.nanos_per_second
        < time.nanos midnight + fragment.nanos_per_day)
  /\ (fst (time_Zone t) = "UTC" ->
      NullTime_Scan nt (ATime t)
      = (sql.NullTime.mk t (negb (time.IsZero t)), None)).
Proof.
  cbv zeta. unfold NullTime_Scan.
  cbn [NullTime_sql_Scan sql.NullTime.Time].
  rewrite time_Date_of_local_day. fold (local_day t).
  destruct (time_Zone t) as [zone offset] eqn:Hzone. cbn [fst snd].
  split.
  - intros Hname. apply String.eqb_neq in Hname. rewrite Hname.
    cbn [negb sql.NullTime.Time]. split; [|split].
    + now destruct (time.IsZero _).
    + cbn [time.nanos]. apply Z.mod_mul. discriminate.
    + cbn [time.nanos]. unfold local_day. rewrite Hzone. cbn [snd].
      pose proof (Z.div_mod (time.nanos t + offset * fragment.nanos_per_second)
                    fragment.nanos_per_day ltac:(discriminate)) as Hdm.
      pose proof (Z.mod_pos_bound
                    (time.nanos t + offset * fragment.nanos_per_second)
                    fragment.nanos_per_day eq_refl) as Hb.
      lia.
  - intros ->. rewrite String.eqb_refl.
    cbn [negb sql.NullTime.Time]. now destruct (time.IsZero t).
Qed.

End NullTime_Scan_results.

(** The text of a date is no time. *)
Lemma NullTime_Scan_outcome_witness :
  Some (LibraryError "database/sql" "unsupported Scan") <> None.
Proof.
  destruct (NullTime_Scan_outcome
              (Ls := FixedZone "EST" (-18000))
              (sql.NullTime.mk y2000 true) (sql.NullTime.mk y2000 true)
              (AValue (VString "2000-01-01"))
              (Some (LibraryError "database/sql" "unsupported Scan"))
              eq_refl)
    as (_ & Hrefused & _).
  apply (Hrefused (VString "2000-01-01")).
  - reflexivity.
  - discriminate.
Defined.

(** The instant 2000-01-01 02:00:00 UTC in a zone five hours west of
    UTC, where the day is still December 31, 1999: what is stored is
    1999-12-31 00:00:00 UTC. *)
Lemma NullTime_Scan_of_a_time_witness :
  NullTime_Scan (Ls := FixedZone "EST" (-18000))
    (sql.NullTime.mk time.zero false)
    (ATime {| time.nanos := 63082288800000000000; time.loc := 1 |})
  = (sql.NullTime.mk
       {| time.nanos := 63082195200000000000; time.loc := 0 |} true, None).
Proof.
  destruct (NullTime_Scan_of_a_time
              (Ls := FixedZone "EST" (-18000))
              (sql.NullTime.mk time.zero false)
              {| time.nanos := 63082288800000000000; time.loc := 1 |})
    as [Hother _].
  apply Hother. discriminate.
Defined.
